(** * The lab controller: session store, catalog, verifier and student commands

    A shallow embedding of [packages/lab-controller/lab-controller.py].

    Conventions of the embedding.
    - Every Python object the controller handles is either built from literals
      or decoded from JSON, so one type [json] of values serves for session
      data, lab configurations and verification results.  Numbers are the
      integers ([int] is unbounded, hence [Z]); floating-point numbers are
      outside the embedding.  A character of a string is one [ascii].
    - A dictionary is an association list in insertion order, keyed by
      strings.  Every subscript the controller performs on a dictionary uses a
      string key, so entries under other keys are not recorded.
    - An exception is a value of [exn]; a computation that may raise returns
      [res A].  Code that reads or writes files runs in the monad [M], which
      threads the file system and keeps what was written before a raise.  An
      exception that leaves a command ends the process, so what the command
      had changed in memory only is gone with it.
    - [json.load]/[json.loads] belong to the Python library: a text is
      represented by what the decoder yields on it ([text]), and a file by
      its text.
    - [datetime.now().isoformat()] and the outcome of [subprocess.run] are
      inputs of the functions that use them.
    - What a command prints is summarised by a constructor naming the branch
      taken; a loop that only prints is kept for the exception it may raise. *)

From Stdlib Require Import ZArith.
From stdpp Require Import gmap strings list pretty.

Local Open Scope string_scope.
Local Open Scope Z_scope.

(** ** Python values *)

#[warnings="-register-all"]
Inductive json : Type :=
  | JNull
  | JBool (b : bool)
  | JInt (z : Z)
  | JStr (s : string)
  | JList (l : list json)
  | JObj (d : list (string * json)).

Abbreviation dict := (list (string * json)).

Inductive exn_class : Type :=
  | KeyError
  | TypeError
  | ValueError
  | AttributeError
  | IndexError
  | JSONDecodeError
  | TimeoutExpired
  | IsADirectoryError
  | OSError.

(** An exception: its class and [str(e)].  The text is CPython's where the
    controller reads it (the handler in [verify]) and indicative elsewhere. *)
Record exn : Type := Exn { exn_cls : exn_class; exn_str : string }.

Definition res (A : Type) : Type := exn + A.

Definition raise {A} (c : exn_class) (msg : string) : res A := inl (Exn c msg).

Definition res_bind {A B} (r : res A) (k : A -> res B) : res B :=
  match r with
  | inl e => inl e
  | inr a => k a
  end.

Notation "x <-? r ; k" := (res_bind r (fun x => k))
  (at level 100, r at next level, right associativity).

(** The name [type(v).__name__] used in error texts. *)
Definition type_name (v : json) : string :=
  match v with
  | JNull => "NoneType"
  | JBool _ => "bool"
  | JInt _ => "int"
  | JStr _ => "str"
  | JList _ => "list"
  | JObj _ => "dict"
  end.

Definition Z_of_bool (b : bool) : Z := if b then 1 else 0.

(** *** Dictionaries *)

Fixpoint dict_lookup (k : string) (d : dict) : option json :=
  match d with
  | [] => None
  | (k', v) :: d' => if String.eqb k k' then Some v else dict_lookup k d'
  end.

(** [d[k] = v]: an existing key keeps its position. *)
Fixpoint dict_set (k : string) (v : json) (d : dict) : dict :=
  match d with
  | [] => [(k, v)]
  | (k', v') :: d' =>
      if String.eqb k k' then (k', v) :: d' else (k', v') :: dict_set k v d'
  end.

(** The keys in iteration order, each once. *)
Fixpoint dict_keys (d : dict) : list string :=
  match d with
  | [] => []
  | (k, _) :: d' => k :: filter (fun k' => k' ≠ k) (dict_keys d')
  end.

(** *** Operations on values *)

(** [bool(v)] *)
Definition truthy (v : json) : bool :=
  match v with
  | JNull => false
  | JBool b => b
  | JInt z => negb (z =? 0)
  | JStr s => negb (String.eqb s "")
  | JList l => match l with [] => false | _ => true end
  | JObj d => match d with [] => false | _ => true end
  end.

(** [v[k]] for a string [k]. *)
Definition getitem (v : json) (k : string) : res json :=
  match v with
  | JObj d =>
      match dict_lookup k d with
      | Some x => inr x
      | None => raise KeyError ("'" +:+ k +:+ "'")
      end
  | JList _ => raise TypeError "list indices must be integers or slices, not str"
  | JStr _ => raise TypeError "string indices must be integers, not 'str'"
  | _ => raise TypeError ("'" +:+ type_name v +:+ "' object is not subscriptable")
  end.

(** [v[k] = x] for a string [k]. *)
Definition setitem (v : json) (k : string) (x : json) : res json :=
  match v with
  | JObj d => inr (JObj (dict_set k x d))
  | JList _ => raise TypeError "list indices must be integers or slices, not str"
  | _ => raise TypeError
           ("'" +:+ type_name v +:+ "' object does not support item assignment")
  end.

(** [v.get(k, dflt)] *)
Definition dict_get (v : json) (k : string) (dflt : json) : res json :=
  match v with
  | JObj d => inr (default dflt (dict_lookup k d))
  | _ => raise AttributeError
           ("'" +:+ type_name v +:+ "' object has no attribute 'get'")
  end.

(** [needle in hay] on strings. *)
Fixpoint substring_of (needle hay : string) : bool :=
  String.prefix needle hay ||
  match hay with
  | EmptyString => false
  | String _ hay' => substring_of needle hay'
  end.

Definition eq_str (x : string) (v : json) : bool :=
  match v with
  | JStr s => String.eqb x s
  | _ => false
  end.

(** [x in v] for a string [x]. *)
Definition contains (v : json) (x : string) : res bool :=
  match v with
  | JList l => inr (existsb (eq_str x) l)
  | JObj d => inr (bool_decide (is_Some (dict_lookup x d)))
  | JStr s => inr (substring_of x s)
  | _ => raise TypeError
           ("argument of type '" +:+ type_name v +:+ "' is not iterable")
  end.

(** [v.append(x)] *)
Definition append (v : json) (x : json) : res json :=
  match v with
  | JList l => inr (JList (l ++ [x]))
  | _ => raise AttributeError
           ("'" +:+ type_name v +:+ "' object has no attribute 'append'")
  end.

(** The integer a value stands for in arithmetic and comparisons with an
    [int]; [bool] is a subclass of [int]. *)
Definition as_int (v : json) : option Z :=
  match v with
  | JInt z => Some z
  | JBool b => Some (Z_of_bool b)
  | _ => None
  end.

(** [v + n] and [v - n] for an integer [n]. *)
Definition add_int (v : json) (n : Z) : res Z :=
  match as_int v with
  | Some z => inr (z + n)
  | None => raise TypeError
              ("unsupported operand type(s): '" +:+ type_name v +:+ "' and 'int'")
  end.

Definition chars (s : string) : list json :=
  (fun c => JStr (String c EmptyString)) <$> String.list_ascii_of_string s.

(** The elements [for x in v] visits. *)
Definition iterate (v : json) : res (list json) :=
  match v with
  | JList l => inr l
  | JStr s => inr (chars s)
  | JObj d => inr (JStr <$> dict_keys d)
  | _ => raise TypeError ("'" +:+ type_name v +:+ "' object is not iterable")
  end.

(** [len(v)] *)
Definition len (v : json) : res Z :=
  match v with
  | JList l => inr (Z.of_nat (length l))
  | JStr s => inr (Z.of_nat (String.length s))
  | JObj d => inr (Z.of_nat (length (dict_keys d)))
  | _ => raise TypeError ("object of type '" +:+ type_name v +:+ "' has no len()")
  end.

(** [l[i]] on a sequence of length [n]: negative indices count from the end. *)
Definition seq_index {A} (l : list A) (i : Z) : option A :=
  let n := Z.of_nat (length l) in
  if (0 <=? i) && (i <? n) then l !! Z.to_nat i
  else if (- n <=? i) && (i <? 0) then l !! Z.to_nat (n + i)
  else None.

(** [v[i]] for an integer [i]. *)
Definition index (v : json) (i : Z) : res json :=
  match v with
  | JList l =>
      match seq_index l i with
      | Some x => inr x
      | None => raise IndexError "list index out of range"
      end
  | JStr s =>
      match seq_index (chars s) i with
      | Some x => inr x
      | None => raise IndexError "string index out of range"
      end
  | JObj _ => raise KeyError (pretty i)
  | _ => raise TypeError ("'" +:+ type_name v +:+ "' object is not subscriptable")
  end.

(** [d.update(other)].  A mapping is merged key by key.  Anything else is read
    as a sequence of pairs, each stored as soon as it is read, so the entries
    read before a bad element stay in [d] when the call raises. *)
Definition pair_of (i : nat) (item : json) : res (json * json) :=
  match
    match item with
    | JList l => Some l
    | JStr s => Some (chars s)
    | JObj d => Some (JStr <$> dict_keys d)
    | _ => None
    end
  with
  | None => raise TypeError
              ("cannot convert dictionary update sequence element #"
               +:+ pretty i +:+ " to a sequence")
  | Some [k; v] => inr (k, v)
  | Some l => raise ValueError
                ("dictionary update sequence element #" +:+ pretty i
                 +:+ " has length " +:+ pretty (length l) +:+ "; 2 is required")
  end.

Definition store_pair (d : dict) (kv : json * json) : res dict :=
  match kv.1 with
  | JStr k => inr (dict_set k kv.2 d)
  | JList _ | JObj _ =>
      raise TypeError ("unhashable type: '" +:+ type_name kv.1 +:+ "'")
  | _ => inr d
  end.

Fixpoint update_pairs (i : nat) (items : list json) (d : dict)
  : dict * option exn :=
  match items with
  | [] => (d, None)
  | item :: items' =>
      match kv <-? pair_of i item; store_pair d kv with
      | inl e => (d, Some e)
      | inr d' => update_pairs (S i) items' d'
      end
  end.

Definition dict_update (d : dict) (other : json) : dict * option exn :=
  match other with
  | JObj d' => (foldl (fun acc kv => dict_set kv.1 kv.2 acc) d d', None)
  | JList items => update_pairs 0 items d
  | JStr s => update_pairs 0 (chars s) d
  | _ => (d, Some (Exn TypeError
                     ("'" +:+ type_name other +:+ "' object is not iterable")))
  end.

(** ** Files *)

(** A text, as the JSON decoder sees it: the value it decodes to, or the
    fields of the [JSONDecodeError] the decoder raises on it. *)
Inductive text : Type :=
  | Decodes (v : json)
  | Undecodable (msg : string) (lineno colno pos : Z).

Inductive node : Type :=
  | Dir
  | File (t : text).

Abbreviation fs := (gmap string node).

Definition decode_error (msg : string) (lineno colno pos : Z) : exn :=
  Exn JSONDecodeError
    (msg +:+ ": line " +:+ pretty lineno +:+ " column " +:+ pretty colno
     +:+ " (char " +:+ pretty pos +:+ ")").

Definition json_loads (t : text) : res json :=
  match t with
  | Decodes v => inr v
  | Undecodable msg l c p => inl (decode_error msg l c p)
  end.

(** ** Computations over the file system *)

Definition M (A : Type) : Type := fs -> res A * fs.

Definition ret {A} (a : A) : M A := fun σ => (inr a, σ).

Definition bind {A B} (m : M A) (k : A -> M B) : M B :=
  fun σ =>
    match m σ with
    | (inl e, σ') => (inl e, σ')
    | (inr a, σ') => k a σ'
    end.

Definition lift {A} (r : res A) : M A := fun σ => (r, σ).

Notation "x <- m ;; k" := (bind m (fun x => k))
  (at level 100, m at next level, right associativity).
Notation "m ;;; k" := (bind m (fun _ => k))
  (at level 100, right associativity).

(** [Path.exists()] *)
Definition path_exists (p : string) : M bool :=
  fun σ => (inr (bool_decide (is_Some (σ !! p))), σ).

(** [with open(p) as f: json.load(f)] *)
Definition json_load (p : string) : M json :=
  fun σ =>
    match σ !! p with
    | Some (File t) => (json_loads t, σ)
    | Some Dir =>
        (raise IsADirectoryError ("[Errno 21] Is a directory: '" +:+ p +:+ "'"), σ)
    | None =>
        (raise OSError ("[Errno 2] No such file or directory: '" +:+ p +:+ "'"), σ)
    end.

(** [Path.read_text()] *)
Definition read_text (p : string) : M text :=
  fun σ =>
    match σ !! p with
    | Some (File t) => (inr t, σ)
    | Some Dir =>
        (raise IsADirectoryError ("[Errno 21] Is a directory: '" +:+ p +:+ "'"), σ)
    | None =>
        (raise OSError ("[Errno 2] No such file or directory: '" +:+ p +:+ "'"), σ)
    end.

(** [with open(p, 'w') as f: json.dump(v, f, indent=2)] *)
Definition json_dump (p : string) (v : json) : M unit :=
  fun σ =>
    match σ !! p with
    | Some Dir =>
        (raise IsADirectoryError ("[Errno 21] Is a directory: '" +:+ p +:+ "'"), σ)
    | _ => (inr tt, <[p := File (Decodes v)]> σ)
    end.

(** [a / b] on paths, for a relative, non-empty [b]. *)
Definition path_join (a b : string) : string := a +:+ "/" +:+ b.

(** ** The controller *)

Record LabDefinition : Type := {
  lab_id : string;
  title : json;
  description : json;
  difficulty : json;
  objectives : json;
  hints : json;
  time_limit : json;
  verification_script : json
}.

Record StudentSession : Type := {
  student_id : string;
  session_file : string;
  data : json
}.

(** What [subprocess.run([...], capture_output=True, text=True, timeout=30)]
    does: the child exits, the timeout expires, or the call raises otherwise
    (the interpreter is missing, the output is not text). *)
Inductive run_outcome : Type :=
  | Exited (returncode : Z) (stdout : text) (stderr : string)
  | TimedOut
  | RunFailed (e : exn).

Inductive start_output : Type :=
  | StartLabNotFound
  | LabStarted.

Inductive hint_output : Type :=
  | HintNoActiveLab
  | HintNone
  | Hint (number : Z) (hint : json).

Inductive verify_output : Type :=
  | VerifyNoActiveLab
  | VerifyLabNotFound
  | LabCompleted (results : json)
  | NotQuiteThere (results : json).

Section Controller.

(** [Path(__file__).parent]: the directory the script is installed in. *)
Variable script_dir : string.

Definition LAB_ROOT : string := "/var/lib/ai-agents-lab".
Definition LABS_DIR : string := path_join script_dir "labs".
Definition STATE_DIR : string := path_join LAB_ROOT "state".

(** *** LabDefinition *)

(** [LabDefinition.__init__] *)
Definition LabDefinition_init (lab_id : string) (config : json)
  : res LabDefinition :=
  title <-? dict_get config "title" (JStr "Untitled Lab");
  description <-? dict_get config "description" (JStr "");
  difficulty <-? dict_get config "difficulty" (JStr "beginner");
  objectives <-? dict_get config "objectives" (JList []);
  hints <-? dict_get config "hints" (JList []);
  time_limit <-? dict_get config "time_limit" JNull;
  verification_script <-? dict_get config "verification_script" JNull;
  inr {| lab_id := lab_id; title := title; description := description;
         difficulty := difficulty; objectives := objectives; hints := hints;
         time_limit := time_limit;
         verification_script := verification_script |}.

(** [LabDefinition.load]: [None] after printing "Lab ... not found". *)
Definition load (lab_id : string) : M (option LabDefinition) :=
  let lab_file := path_join (path_join LABS_DIR lab_id) "lab.json" in
  present <- path_exists lab_file;;
  if negb present then ret None
  else
    config <- json_load lab_file;;
    lab <- lift (LabDefinition_init lab_id config);;
    ret (Some lab).

(** [LabDefinition.get_starter_code] *)
Definition get_starter_code (self : LabDefinition) : M (option text) :=
  let starter_file := path_join (path_join LABS_DIR self.(lab_id)) "starter.py" in
  present <- path_exists starter_file;;
  if present then
    starter <- read_text starter_file;;
    ret (Some starter)
  else ret None.

(** [LabDefinition.get_verification_script] *)
Definition get_verification_script (self : LabDefinition) : M (option string) :=
  let verify_file := path_join (path_join LABS_DIR self.(lab_id)) "verify.py" in
  present <- path_exists verify_file;;
  ret (if present then Some verify_file else None).

(** *** StudentSession *)

Definition zero_state (student_id now : string) : json :=
  JObj [("student_id", JStr student_id);
        ("created_at", JStr now);
        ("current_lab", JNull);
        ("completed_labs", JList []);
        ("attempts", JObj []);
        ("score", JInt 0)].

(** [StudentSession._load_or_create]; [now] is [datetime.now().isoformat()]. *)
Definition _load_or_create (student_id session_file now : string) : M json :=
  present <- path_exists session_file;;
  if present then json_load session_file
  else ret (zero_state student_id now).

(** [StudentSession.__init__] *)
Definition StudentSession_init (student_id now : string) : M StudentSession :=
  let session_file := path_join STATE_DIR (student_id +:+ ".json") in
  data <- _load_or_create student_id session_file now;;
  ret {| student_id := student_id; session_file := session_file; data := data |}.

Definition with_data (self : StudentSession) (data : json) : StudentSession :=
  {| student_id := self.(student_id); session_file := self.(session_file);
     data := data |}.

(** [StudentSession.save] *)
Definition save (self : StudentSession) : M unit :=
  json_dump self.(session_file) self.(data).

(** [StudentSession.start_lab] *)
Definition start_lab (self : StudentSession) (lab_id now : string)
  : M StudentSession :=
  d1 <- lift (setitem self.(data) "current_lab" (JStr lab_id));;
  attempts <- lift (getitem d1 "attempts");;
  count <- lift (dict_get attempts lab_id (JInt 0));;
  count' <- lift (add_int count 1);;
  attempts <- lift (getitem d1 "attempts");;
  attempts' <- lift (setitem attempts lab_id (JInt count'));;
  d2 <- lift (setitem d1 "attempts" attempts');;
  d3 <- lift (setitem d2 "lab_start_time" (JStr now));;
  let self' := with_data self d3 in
  save self';;;
  ret self'.

(** [StudentSession.complete_lab] *)
Definition complete_lab (self : StudentSession) (lab_id : string) (score : Z)
  : M StudentSession :=
  completed <- lift (getitem self.(data) "completed_labs");;
  done_before <- lift (contains completed lab_id);;
  d1 <- (if negb done_before then
           completed <- lift (getitem self.(data) "completed_labs");;
           completed' <- lift (append completed (JStr lab_id));;
           lift (setitem self.(data) "completed_labs" completed')
         else ret self.(data));;
  total <- lift (getitem d1 "score");;
  total' <- lift (add_int total score);;
  d2 <- lift (setitem d1 "score" (JInt total'));;
  d3 <- lift (setitem d2 "current_lab" JNull);;
  let self' := with_data self d3 in
  save self';;;
  ret self'.

(** [StudentSession.get_progress] *)
Definition get_progress (self : StudentSession) : res json :=
  current <-? getitem self.(data) "current_lab";
  completed <-? getitem self.(data) "completed_labs";
  n <-? len completed;
  total <-? getitem self.(data) "score";
  attempts <-? getitem self.(data) "attempts";
  inr (JObj [("student_id", JStr self.(student_id));
             ("current_lab", current);
             ("completed_labs", JInt n);
             ("total_score", total);
             ("attempts", attempts)]).

(** *** LabVerifier *)

(** [results["feedback"].append(msg)] *)
Definition feedback_append (results : dict) (msg : string) : res dict :=
  feedback <-? getitem (JObj results) "feedback";
  feedback' <-? append feedback (JStr msg);
  inr (dict_set "feedback" feedback' results).

(** [repr] of a list of strings that need no escaping. *)
Definition repr_argv (argv : list string) : string :=
  "[" +:+ String.concat ", " ((fun a => "'" +:+ a +:+ "'") <$> argv) +:+ "]".

(** [subprocess.TimeoutExpired(argv, timeout)] *)
Definition timeout_expired (argv : list string) (timeout : Z) : exn :=
  Exn TimeoutExpired
    ("Command '" +:+ repr_argv argv +:+ "' timed out after " +:+ pretty timeout
     +:+ " seconds").

(** The body of the [try] in [verify]: the results as it leaves them and the
    exception it raises, if any. *)
Definition run_check (results : dict) (argv : list string) (run : run_outcome)
  : dict * option exn :=
  match run with
  | TimedOut => (results, Some (timeout_expired argv 30))
  | RunFailed e => (results, Some e)
  | Exited returncode stdout stderr =>
      if returncode =? 0 then
        match json_loads stdout with
        | inl e => (results, Some e)
        | inr verify_data => dict_update results verify_data
        end
      else
        match feedback_append results ("Verification failed: " +:+ stderr) with
        | inl e => (results, Some e)
        | inr results' => (results', None)
        end
  end.

(** [LabVerifier.verify]; [run] is what running the script does.  The script
    is a process of its own: what it does to the files is not part of the
    controller and is not modelled. *)
Definition verify (lab : LabDefinition) (now : string) (run : run_outcome)
  : M json :=
  let results :=
    [("lab_id", JStr lab.(lab_id));
     ("timestamp", JStr now);
     ("objectives_met", JList []);
     ("objectives_failed", JList []);
     ("score", JInt 0);
     ("feedback", JList [])] in
  verify_script <- get_verification_script lab;;
  match verify_script with
  | Some script =>
      let '(results', raised) := run_check results ["python3"; script] run in
      match raised with
      | None => ret (JObj results')
      | Some e =>
          results'' <- lift (feedback_append results'
                               ("Verification error: " +:+ e.(exn_str)));;
          ret (JObj results'')
      end
  | None =>
      results' <- lift (feedback_append results
                          "No automated verification available");;
      ret (JObj results')
  end.

(** *** StudentCLI *)

(** [LabDefinition.load(v)] for a value read from the session: the path
    cannot be built from anything but a string. *)
Definition load_value (v : json) : M (option LabDefinition) :=
  match v with
  | JStr lab_id => load lab_id
  | _ => lift (raise TypeError
                 ("unsupported operand type(s) for /: 'PosixPath' and '"
                  +:+ type_name v +:+ "'"))
  end.

(** [StudentCLI.cmd_start].  The loop over the objectives only prints, but
    raises when they cannot be iterated; the starter code is read only to
    print that there is some. *)
Definition cmd_start (session : StudentSession) (lab_id now : string)
  : M (StudentSession * start_output) :=
  lab <- load lab_id;;
  match lab with
  | None => ret (session, StartLabNotFound)
  | Some lab =>
      lift (iterate lab.(objectives));;;
      get_starter_code lab;;;
      session' <- start_lab session lab_id now;;
      ret (session', LabStarted)
  end.

(** [StudentCLI.cmd_hint] *)
Definition cmd_hint (session : StudentSession) : M hint_output :=
  current <- lift (getitem session.(data) "current_lab");;
  if negb (truthy current) then ret HintNoActiveLab
  else
    lab <- load_value current;;
    match lab with
    | None => ret HintNone
    | Some lab =>
        if negb (truthy lab.(hints)) then ret HintNone
        else
          attempts <- lift (getitem session.(data) "attempts");;
          attempt <- lift (dict_get attempts lab.(lab_id) (JInt 1));;
          a <- lift (add_int attempt (-1));;
          n <- lift (len lab.(hints));;
          let hint_index := Z.min a (n - 1) in
          hint <- lift (index lab.(hints) hint_index);;
          ret (Hint (hint_index + 1) hint)
    end.

(** [StudentCLI.cmd_verify].  The loops only print, but raise when the value
    they walk cannot be iterated. *)
Definition cmd_verify (session : StudentSession) (now : string)
    (run : run_outcome) : M (StudentSession * verify_output) :=
  current <- lift (getitem session.(data) "current_lab");;
  if negb (truthy current) then ret (session, VerifyNoActiveLab)
  else
    lab <- load_value current;;
    match lab with
    | None => ret (session, VerifyLabNotFound)
    | Some lab =>
        results <- verify lab now run;;
        met <- lift (getitem results "objectives_met");;
        lift (iterate met);;;
        failed <- lift (getitem results "objectives_failed");;
        lift (iterate failed);;;
        lift (getitem results "score");;;
        feedback <- lift (getitem results "feedback");;
        (if truthy feedback then
           feedback <- lift (getitem results "feedback");;
           lift (iterate feedback);;; ret tt
         else ret tt);;;
        score <- lift (getitem results "score");;
        match as_int score with
        | None =>
            lift (raise TypeError
                    ("'>=' not supported between instances of '"
                     +:+ type_name score +:+ "' and 'int'"))
        | Some z =>
            if 70 <=? z then
              session' <- complete_lab session lab.(lab_id) z;;
              ret (session', LabCompleted results)
            else ret (session, NotQuiteThere results)
        end
    end.

End Controller.


(** ** The instructor commands

    [InstructorCLI] reads the store under [STATE_DIR] only, so its commands
    do not depend on where the script is installed. *)

(** [str.lower()] on one character. *)
Definition lower_char (c : Ascii.ascii) : Ascii.ascii :=
  let n := Ascii.N_of_ascii c in
  if ((65 <=? n) && (n <=? 90)
      || (192 <=? n) && (n <=? 222) && negb (n =? 215))%N
  then Ascii.ascii_of_N (n + 32)
  else c.

(** [str.lower()] *)
Fixpoint lower (s : string) : string :=
  match s with
  | EmptyString => EmptyString
  | String c s' => String (lower_char c) (lower s')
  end.

(** [v.items()] *)
Definition items (v : json) : res (list (string * json)) :=
  match v with
  | JObj d => inr ((fun k => (k, default JNull (dict_lookup k d))) <$> dict_keys d)
  | _ => raise AttributeError
           ("'" +:+ type_name v +:+ "' object has no attribute 'items'")
  end.

(** [Path.unlink(missing_ok=True)] *)
Definition unlink (p : string) : M unit :=
  fun σ =>
    match σ !! p with
    | Some Dir =>
        (raise IsADirectoryError ("[Errno 21] Is a directory: '" +:+ p +:+ "'"), σ)
    | Some (File _) => (inr tt, delete p σ)
    | None => (inr tt, σ)
    end.

(** A loop whose body may raise: the results of the iterations done. *)
Fixpoint for_each {A B} (f : A -> res B) (l : list A) : res (list B) :=
  match l with
  | [] => inr []
  | x :: l' =>
      y <-? f x;
      ys <-? for_each f l';
      inr (y :: ys)
  end.

(** One line of the breakdown of [cmd_grade]: the mark, the lab and its
    attempts. *)
Record grade_row : Type := {
  row_completed : bool;
  row_lab : string;
  row_attempts : json
}.

(** What [cmd_grade] prints: "Total Score", "Labs Completed" and the
    breakdown. *)
Record grade_report : Type := {
  report_score : json;
  report_completed : json;
  report_rows : list grade_row
}.

Inductive reset_output : Type :=
  | ResetComplete
  | ResetCancelled.

(** [InstructorCLI.cmd_grade] *)
Definition cmd_grade (student_id now : string) : M grade_report :=
  session <- StudentSession_init student_id now;;
  progress <- lift (get_progress session);;
  total <- lift (getitem progress "total_score");;
  count <- lift (getitem progress "completed_labs");;
  attempts <- lift (getitem progress "attempts");;
  entries <- lift (items attempts);;
  rows <- lift (for_each
                  (fun entry : string * json =>
                     completed <-? getitem session.(data) "completed_labs";
                     done <-? contains completed entry.1;
                     inr {| row_completed := done; row_lab := entry.1;
                            row_attempts := entry.2 |})
                  entries);;
  ret {| report_score := total; report_completed := count;
         report_rows := rows |}.

(** [InstructorCLI.cmd_reset]; [confirm] is what the instructor types at the
    prompt. *)
Definition cmd_reset (student_id now confirm : string) : M reset_output :=
  if String.eqb (lower confirm) "yes" then
    session <- StudentSession_init student_id now;;
    unlink session.(session_file);;;
    ret ResetComplete
  else ret ResetCancelled.

(** ** The model server

    [requests.post] and [requests.get] are inputs: the server is a function
    from the request to what the call, followed by [raise_for_status],
    does. *)

Inductive http_outcome : Type :=
  | HttpFails (e : exn)
  | HttpResponds (body : text).

Definition OLLAMA_URL : string := "http://localhost:11434".
Definition RED_MODEL : string := "red-qwen-agent".
Definition BLUE_MODEL : string := "blue-llama-agent".

(** [try: body except Exception as e: handler] *)
Definition try_except {A} (body : res A) (handler : exn -> res A) : res A :=
  match body with
  | inl e => handler e
  | inr a => inr a
  end.

(** [response.json()], after the request and [raise_for_status()]. *)
Definition response_json (o : http_outcome) : res json :=
  match o with
  | HttpFails e => inl e
  | HttpResponds body => json_loads body
  end.

Section Ollama.

Variable post : string -> json -> http_outcome.
Variable get : string -> http_outcome.

(** [OllamaClient.chat] *)
Definition chat (base_url model message : string) (system : option string)
  : res json :=
  let messages :=
    (match system with
     | Some prompt =>
         if truthy (JStr prompt)
         then [JObj [("role", JStr "system"); ("content", JStr prompt)]]
         else []
     | None => []
     end ++ [JObj [("role", JStr "user"); ("content", JStr message)]])%list in
  try_except
    (response <-? response_json
                    (post (base_url +:+ "/api/chat")
                       (JObj [("model", JStr model);
                              ("messages", JList messages);
                              ("stream", JBool false)]));
     reply <-? getitem response "message";
     getitem reply "content")
    (fun e => inr (JStr ("Error communicating with " +:+ model +:+ ": "
                         +:+ e.(exn_str)))).

(** [OllamaClient.generate] *)
Definition generate (base_url model prompt : string) : res json :=
  try_except
    (response <-? response_json
                    (post (base_url +:+ "/api/generate")
                       (JObj [("model", JStr model);
                              ("prompt", JStr prompt);
                              ("stream", JBool false)]));
     getitem response "response")
    (fun e => inr (JStr ("Error: " +:+ e.(exn_str)))).

(** [OllamaClient.list_models] *)
Definition list_models (base_url : string) : res (list json) :=
  try_except
    (response <-? response_json (get (base_url +:+ "/api/tags"));
     models <-? getitem response "models";
     entries <-? iterate models;
     for_each (fun model => getitem model "name") entries)
    (fun e => inr []).

(** [AgentController.get_agent_status] *)
Definition get_agent_status : res json :=
  models <-? list_models OLLAMA_URL;
  inr (JObj [("red_agent", JBool (existsb (eq_str RED_MODEL) models));
             ("blue_agent", JBool (existsb (eq_str BLUE_MODEL) models));
             ("models_loaded", JList models)]).

(** What [cmd_status] prints: the current lab (or "None"), the number of
    completed labs, the score and a mark for each agent. *)
Record status_output : Type := {
  status_lab : json;
  status_completed : json;
  status_score : json;
  status_red : bool;
  status_blue : bool
}.

(** [StudentCLI.cmd_status] *)
Definition cmd_status (session : StudentSession) : res status_output :=
  progress <-? get_progress session;
  agent_status <-? get_agent_status;
  current <-? getitem progress "current_lab";
  completed <-? getitem progress "completed_labs";
  total <-? getitem progress "total_score";
  red <-? getitem agent_status "red_agent";
  blue <-? getitem agent_status "blue_agent";
  inr {| status_lab := if truthy current then current else JStr "None";
         status_completed := completed;
         status_score := total;
         status_red := truthy red;
         status_blue := truthy blue |}.

End Ollama.
(** ** Reading a session record

    The claims speak of the active lab, the completed set, the attempt counts
    and the cumulative score of a session: these are the four entries of its
    data, read here for the statements below. *)

Definition active_lab (s : StudentSession) : res json :=
  getitem s.(data) "current_lab".

Definition completed (s : StudentSession) : res json :=
  getitem s.(data) "completed_labs".

Definition attempts_map (s : StudentSession) : res json :=
  getitem s.(data) "attempts".

Definition total_score (s : StudentSession) : res json :=
  getitem s.(data) "score".

(** The attempt count recorded for a lab. *)
Definition attempt_count (s : StudentSession) (lab : string) : option json :=
  match attempts_map s with
  | inr (JObj d) => dict_lookup lab d
  | _ => None
  end.

(** The record a session file holds. *)
Definition persisted (σ : fs) (s : StudentSession) : option node :=
  σ !! s.(session_file).

(** The list [complete_lab] leaves in the completed set. *)
Definition with_lab (lab : string) (cl : list json) : list json :=
  if existsb (eq_str lab) cl then cl else cl ++ [JStr lab].

(** ** Sequences of session operations *)

Inductive op : Type :=
  | StartLab (lab now : string)
  | CompleteLab (lab : string) (score : Z).

Definition run_op (s : StudentSession) (o : op) : M StudentSession :=
  match o with
  | StartLab lab now => start_lab s lab now
  | CompleteLab lab score => complete_lab s lab score
  end.

(** A completion is admissible when the lab has been started at least once
    and the score is not negative.  [cmd_verify] only ever completes the
    active lab, with a score of at least 70. *)
Definition admissible (s : StudentSession) (o : op) : Prop :=
  match o with
  | StartLab _ _ => True
  | CompleteLab lab score => is_Some (attempt_count s lab) /\ 0 <= score
  end.

(** The sessions (and stores) reached from a student's first access. *)
Inductive reachable (sid : string) : StudentSession -> fs -> Prop :=
  | reach_new now σ s :
      σ !! path_join STATE_DIR (sid +:+ ".json") = None ->
      StudentSession_init sid now σ = (inr s, σ) ->
      reachable sid s σ
  | reach_op s σ o s' σ' :
      reachable sid s σ ->
      admissible s o ->
      run_op s o σ = (inr s', σ') ->
      reachable sid s' σ'.

(** Every completed lab has an attempt count, every attempt count is an
    integer that is at least 1, the score is not negative, and the active
    lab, if there is one, has an attempt count. *)
Definition session_inv (s : StudentSession) : Prop :=
  exists (cl : list json) (am : dict) (sc : Z) (cur : json),
    completed s = inr (JList cl)
    /\ attempts_map s = inr (JObj am)
    /\ total_score s = inr (JInt sc)
    /\ active_lab s = inr cur
    /\ 0 <= sc
    /\ (forall x, x ∈ cl -> exists lab, x = JStr lab /\ is_Some (dict_lookup lab am))
    /\ (forall lab c, dict_lookup lab am = Some c -> exists n, c = JInt n /\ 1 <= n)
    /\ (cur = JNull \/ exists lab, cur = JStr lab /\ is_Some (dict_lookup lab am)).

(** From [s] to [s']: no attempt count is lost or lowered, and the score does
    not go down. *)
Definition grows (s s' : StudentSession) : Prop :=
  (forall lab n, attempt_count s lab = Some (JInt n) ->
     exists n', attempt_count s' lab = Some (JInt n') /\ n <= n')
  /\ (exists a b, total_score s = inr (JInt a) /\ total_score s' = inr (JInt b)
                  /\ a <= b).

(** ** Concrete inputs used in the examples below *)

Definition t0 : string := "2026-01-01T09:00:00".
Definition t1 : string := "2026-01-01T09:05:00".

(** The session of a student who has no record yet. *)
Definition fresh_session : StudentSession :=
  {| student_id := "student-01";
     session_file := "/var/lib/ai-agents-lab/state/student-01.json";
     data := zero_state "student-01" t0 |}.

(** What [complete_lab fresh_session "lab-01" (-5)] leaves. *)
Definition unstarted_completed : StudentSession :=
  {| student_id := "student-01";
     session_file := "/var/lib/ai-agents-lab/state/student-01.json";
     data := JObj [("student_id", JStr "student-01");
                   ("created_at", JStr t0);
                   ("current_lab", JNull);
                   ("completed_labs", JList [JStr "lab-01"]);
                   ("attempts", JObj []);
                   ("score", JInt (-5))] |}.

(** ** Verification results *)

(** The result with no objective met or failed, score 0 and one feedback
    entry. *)
Definition zero_result (lab : LabDefinition) (now msg : string) : json :=
  JObj [("lab_id", JStr lab.(lab_id));
        ("timestamp", JStr now);
        ("objectives_met", JList []);
        ("objectives_failed", JList []);
        ("score", JInt 0);
        ("feedback", JList [JStr msg])].

(** Where [get_verification_script] looks for the procedure of a lab. *)
Definition script_path (script_dir : string) (lab : LabDefinition) : string :=
  path_join (path_join (LABS_DIR script_dir) lab.(lab_id)) "verify.py".

Fixpoint last_char (s : string) : option Ascii.ascii :=
  match s with
  | EmptyString => None
  | String c EmptyString => Some c
  | String _ s' => last_char s'
  end.

(** A lab installed under [/opt/lab-controller], with two hints. *)
Definition install_dir : string := "/opt/lab-controller".

Definition recon_config : json :=
  JObj [("title", JStr "Basic Network Reconnaissance");
        ("difficulty", JStr "beginner");
        ("objectives", JList [JStr "Identify all open ports on the target"]);
        ("hints", JList [JStr "Try asking the red agent to scan for open ports";
                         JStr "Check common ports: 22, 80, 443"])].

Definition recon_lab : LabDefinition :=
  {| lab_id := "lab-01-recon";
     title := JStr "Basic Network Reconnaissance";
     description := JStr "";
     difficulty := JStr "beginner";
     objectives := JList [JStr "Identify all open ports on the target"];
     hints := JList [JStr "Try asking the red agent to scan for open ports";
                     JStr "Check common ports: 22, 80, 443"];
     time_limit := JNull;
     verification_script := JNull |}.

(** The text of a Python script is not a JSON text. *)
Definition script_file : node := File (Undecodable "Expecting value" 1 1 0).

(** A catalog with that lab, without and with a verification procedure. *)
Definition labs_plain : fs :=
  {[ "/opt/lab-controller/labs/lab-01-recon/lab.json" := File (Decodes recon_config) ]}.

Definition labs_checked : fs :=
  <[ "/opt/lab-controller/labs/lab-01-recon/verify.py" := script_file ]> labs_plain.

(** The object a verification procedure hands over, when it exits with code 0
    and its output decodes. *)
Definition payload_of (run : run_outcome) : option json :=
  match run with
  | Exited returncode (Decodes v) _ => if returncode =? 0 then Some v else None
  | _ => None
  end.

(** A payload that reports 150 points, and the result [verify] makes of it. *)
Definition overscored : run_outcome :=
  Exited 0 (Decodes (JObj [("score", JInt 150)])) "".

Definition overscored_result : json :=
  JObj [("lab_id", JStr "lab-01-recon");
        ("timestamp", JStr t0);
        ("objectives_met", JList []);
        ("objectives_failed", JList []);
        ("score", JInt 150);
        ("feedback", JList [])].

(** A payload within the protocol. *)
Definition passing : run_outcome :=
  Exited 0
    (Decodes (JObj [("objectives_met",
                     JList [JStr "Identify all open ports on the target"]);
                    ("objectives_failed", JList []);
                    ("score", JInt 85);
                    ("feedback", JList [JStr "Well done"])]))
    "".

(** ** The catalog and the store *)

(** The file that backs a lab identifier. *)
Definition lab_file (script_dir lab_id : string) : string :=
  path_join (path_join (LABS_DIR script_dir) lab_id) "lab.json".

(** The definition built from a configuration object: each field is the
    entry of the object, or its default. *)
Definition definition_of (lab_id : string) (cfg : dict) : LabDefinition :=
  {| lab_id := lab_id;
     title := default (JStr "Untitled Lab") (dict_lookup "title" cfg);
     description := default (JStr "") (dict_lookup "description" cfg);
     difficulty := default (JStr "beginner") (dict_lookup "difficulty" cfg);
     objectives := default (JList []) (dict_lookup "objectives" cfg);
     hints := default (JList []) (dict_lookup "hints" cfg);
     time_limit := default JNull (dict_lookup "time_limit" cfg);
     verification_script :=
       default JNull (dict_lookup "verification_script" cfg) |}.

(** An empty file: the decoder expects a value at its first character. *)
Definition empty_file : node := File (Undecodable "Expecting value" 1 1 0).

(** A catalog whose [lab.json] is empty, and a store whose record is. *)
Definition labs_corrupt : fs :=
  {[ "/opt/lab-controller/labs/lab-01-recon/lab.json" := empty_file ]}.

Definition state_corrupt : fs :=
  {[ "/var/lib/ai-agents-lab/state/student-01.json" := empty_file ]}.

(** ** The student commands *)

(** A verification result as the data model has it: lists of objectives, a
    list of feedback and an integer score. *)
Definition is_verification_result (results : json) (z : Z) : Prop :=
  exists met failed feedback,
    getitem results "objectives_met" = inr (JList met)
    /\ getitem results "objectives_failed" = inr (JList failed)
    /\ getitem results "feedback" = inr (JList feedback)
    /\ getitem results "score" = inr (JInt z).

(** A student on the fifth attempt of the reconnaissance lab. *)
Definition retrying_session : StudentSession :=
  {| student_id := "student-01";
     session_file := "/var/lib/ai-agents-lab/state/student-01.json";
     data := JObj [("student_id", JStr "student-01");
                   ("created_at", JStr t0);
                   ("current_lab", JStr "lab-01-recon");
                   ("completed_labs", JList []);
                   ("attempts", JObj [("lab-01-recon", JInt 5)]);
                   ("score", JInt 0);
                   ("lab_start_time", JStr t1)] |}.

(** The result [verify] makes of the payload [passing]. *)
Definition passing_result : json :=
  JObj [("lab_id", JStr "lab-01-recon");
        ("timestamp", JStr t1);
        ("objectives_met", JList [JStr "Identify all open ports on the target"]);
        ("objectives_failed", JList []);
        ("score", JInt 85);
        ("feedback", JList [JStr "Well done"])].

(** ** Histories of a session

    What a sequence of operations amounts to, read off the sequence alone. *)

Fixpoint run_ops (s : StudentSession) (ops : list op) : M StudentSession :=
  match ops with
  | [] => ret s
  | o :: ops' => s' <- run_op s o;; run_ops s' ops'
  end.

(** How many times a lab is started. *)
Fixpoint starts (lab : string) (ops : list op) : Z :=
  match ops with
  | [] => 0
  | StartLab lab' _ :: ops' =>
      (if String.eqb lab lab' then 1 else 0) + starts lab ops'
  | CompleteLab _ _ :: ops' => starts lab ops'
  end.

(** The scores of the completions, added up. *)
Fixpoint score_sum (ops : list op) : Z :=
  match ops with
  | [] => 0
  | StartLab _ _ :: ops' => score_sum ops'
  | CompleteLab _ v :: ops' => v + score_sum ops'
  end.

Definition completes (lab : string) (o : op) : Prop :=
  exists v, o = CompleteLab lab v.

(** The active lab after the operations: the lab of the last one when it is
    a start, none when it is a completion. *)
Definition active_after (cur : json) (ops : list op) : json :=
  match last ops with
  | None => cur
  | Some (StartLab lab _) => JStr lab
  | Some (CompleteLab _ _) => JNull
  end.

(** The path of the record of a student. *)
Definition record_path (sid : string) : string :=
  path_join STATE_DIR (sid +:+ ".json").

(** The attempt count a dictionary of attempts holds for a lab, 0 when it
    holds none. *)
Definition count_in (am : dict) (lab : string) : Z :=
  match dict_lookup lab am with
  | Some (JInt n) => n
  | _ => 0
  end.

(** Start a lab, pass it with 85, start it again, pass it with 40. *)
Definition scenario : list op :=
  [StartLab "lab-01" t0; CompleteLab "lab-01" 85;
   StartLab "lab-01" t1; CompleteLab "lab-01" 40].

(** A session loaded from a record that holds a JSON array. *)
Definition array_session : StudentSession :=
  {| student_id := "student-01";
     session_file := "/var/lib/ai-agents-lab/state/student-01.json";
     data := JList [] |}.

(** What [start_lab fresh_session "lab-01" t1] returns, and the store it
    leaves from the empty one. *)
Definition started_session : StudentSession :=
  {| student_id := "student-01";
     session_file := "/var/lib/ai-agents-lab/state/student-01.json";
     data := JObj [("student_id", JStr "student-01");
                   ("created_at", JStr t0);
                   ("current_lab", JStr "lab-01");
                   ("completed_labs", JList []);
                   ("attempts", JObj [("lab-01", JInt 1)]);
                   ("score", JInt 0);
                   ("lab_start_time", JStr t1)] |}.

Definition started_store : fs :=
  {[ "/var/lib/ai-agents-lab/state/student-01.json"
     := File (Decodes started_session.(data)) ]}.

(** Where [get_starter_code] looks for the starter code of a lab. *)
Definition starter_path (script_dir : string) (lab : string) : string :=
  path_join (path_join (LABS_DIR script_dir) lab) "starter.py".

(** A value that is no sequence: [None], a boolean or an integer. *)
Definition scalar (v : json) : Prop :=
  match v with
  | JNull | JBool _ | JInt _ => True
  | _ => False
  end.

(** The fields [verify] starts from. *)
Definition initial_results (lab : LabDefinition) (now : string) : dict :=
  [("lab_id", JStr lab.(lab_id));
   ("timestamp", JStr now);
   ("objectives_met", JList []);
   ("objectives_failed", JList []);
   ("score", JInt 0);
   ("feedback", JList [])].

(** The row [cmd_grade] prints for a lab. *)
Definition row_of (cl : list json) (am : dict) (lab : string) : grade_row :=
  {| row_completed := existsb (eq_str lab) cl;
     row_lab := lab;
     row_attempts := default JNull (dict_lookup lab am) |}.

(** A session with an attempt count of 0 for its active lab, as a record
    edited by hand may hold. *)
Definition zero_attempt_session : StudentSession :=
  {| student_id := "student-01";
     session_file := "/var/lib/ai-agents-lab/state/student-01.json";
     data := JObj [("student_id", JStr "student-01");
                   ("created_at", JStr t0);
                   ("current_lab", JStr "lab-01-recon");
                   ("completed_labs", JList []);
                   ("attempts", JObj [("lab-01-recon", JInt 0)]);
                   ("score", JInt 0)] |}.

(** A payload that names another lab and another time. *)
Definition spoofing : dict :=
  [("lab_id", JStr "lab-99"); ("timestamp", JStr "1970-01-01T00:00:00");
   ("score", JInt 100)].

(** What [cmd_verify] leaves of [retrying_session] when the procedure hands
    over [passing]: the session and the store. *)
Definition completed_session : StudentSession :=
  {| student_id := "student-01";
     session_file := "/var/lib/ai-agents-lab/state/student-01.json";
     data := JObj [("student_id", JStr "student-01");
                   ("created_at", JStr t0);
                   ("current_lab", JNull);
                   ("completed_labs", JList [JStr "lab-01-recon"]);
                   ("attempts", JObj [("lab-01-recon", JInt 5)]);
                   ("score", JInt 85);
                   ("lab_start_time", JStr t1)] |}.

Definition completed_store : fs :=
  <[ "/var/lib/ai-agents-lab/state/student-01.json"
     := File (Decodes completed_session.(data)) ]> labs_checked.

(** The request [chat] sends: the system prompt, when there is a non-empty
    one, comes before the message of the user. *)
Definition chat_request (model message : string) (system : option string)
  : json :=
  JObj [("model", JStr model);
        ("messages",
         JList (match system with
                | Some prompt =>
                    if String.eqb prompt "" then []
                    else [JObj [("role", JStr "system"); ("content", JStr prompt)]]
                | None => []
                end ++ [JObj [("role", JStr "user"); ("content", JStr message)]]));
        ("stream", JBool false)].

(** The reply of [chat] when the exchange raises [e]. *)
Definition chat_error (model : string) (e : exn) : json :=
  JStr ("Error communicating with " +:+ model +:+ ": " +:+ e.(exn_str)).

(** A server that cannot be reached. *)
Definition unreachable : exn :=
  Exn OSError "Connection refused".

Definition no_server_post (url : string) (request : json) : http_outcome :=
  HttpFails unreachable.

Definition no_server_get (url : string) : http_outcome :=
  HttpFails unreachable.

(** A server that lists the red agent and an entry without a name. *)
Definition half_listed_get (url : string) : http_outcome :=
  HttpResponds
    (Decodes (JObj [("models",
                     JList [JObj [("name", JStr "red-qwen-agent")];
                            JObj [("model", JStr "blue-llama-agent")]])])).

(** What [complete_lab started_session "lab-01" 85] returns, and the store
    it leaves: the lab is completed after one attempt. *)
Definition finished_session : StudentSession :=
  {| student_id := "student-01";
     session_file := "/var/lib/ai-agents-lab/state/student-01.json";
     data := JObj [("student_id", JStr "student-01");
                   ("created_at", JStr t0);
                   ("current_lab", JNull);
                   ("completed_labs", JList [JStr "lab-01"]);
                   ("attempts", JObj [("lab-01", JInt 1)]);
                   ("score", JInt 85);
                   ("lab_start_time", JStr t1)] |}.

Definition finished_store : fs :=
  {[ "/var/lib/ai-agents-lab/state/student-01.json"
     := File (Decodes finished_session.(data)) ]}.

(** The fields [verify] starts from, with the pairs [kvs] stored in them one
    after the other. *)
Definition merged (lab : LabDefinition) (now : string)
    (kvs : list (string * json)) : dict :=
  foldl (fun acc kv => dict_set kv.1 kv.2 acc) (initial_results lab now) kvs.

(** The element [[k, v]] of a JSON array. *)
Definition pair_item (kv : string * json) : json :=
  JList [JStr kv.1; kv.2].

(** A procedure that exits with code 0 and prints [[["score", 100], 5]], and
    the result [verify] makes of it. *)
Definition malformed : run_outcome :=
  Exited 0 (Decodes (JList [JList [JStr "score"; JInt 100]; JInt 5])) "".

Definition malformed_result : json :=
  JObj [("lab_id", JStr "lab-01-recon");
        ("timestamp", JStr t0);
        ("objectives_met", JList []);
        ("objectives_failed", JList []);
        ("score", JInt 100);
        ("feedback",
         JList [JStr "Verification error: cannot convert dictionary update sequence element #1 to a sequence"])].
(** ** Dictionaries: lookup after update *)

Lemma eqb_string_refl (k : string) : String.eqb k k = true.
Proof. apply String.eqb_refl. Qed.

Lemma dict_lookup_set_eq (k : string) (v : json) (d : dict) :
  dict_lookup k (dict_set k v d) = Some v.
Proof.
  induction d as [|[k' v'] d IH]; simpl.
  - by rewrite eqb_string_refl.
  - destruct (String.eqb k k') eqn:E; simpl; rewrite E; auto.
Qed.

Lemma dict_lookup_set_ne (k k' : string) (v : json) (d : dict) :
  k ≠ k' -> dict_lookup k' (dict_set k v d) = dict_lookup k' d.
Proof.
  intros Hne. induction d as [|[k0 v0] d IH]; simpl.
  - destruct (String.eqb k' k) eqn:E; [|done].
    apply String.eqb_eq in E. congruence.
  - destruct (String.eqb k k0) eqn:E; simpl.
    + apply String.eqb_eq in E. subst k0.
      destruct (String.eqb k' k) eqn:E'; [|done].
      apply String.eqb_eq in E'. congruence.
    + destruct (String.eqb k' k0); auto.
Qed.

Lemma getitem_setitem_eq (d : json) (k : string) (v : json) (d' : json) :
  setitem d k v = inr d' -> getitem d' k = inr v.
Proof.
  destruct d; simpl; try discriminate. intros [= <-]. simpl.
  by rewrite dict_lookup_set_eq.
Qed.

Lemma getitem_setitem_ne (d : json) (k k' : string) (v : json) (d' : json) :
  k ≠ k' -> setitem d k v = inr d' -> getitem d' k' = getitem d k'.
Proof.
  intros Hne. destruct d; simpl; try discriminate. intros [= <-]. simpl.
  by rewrite dict_lookup_set_ne.
Qed.

Lemma getitem_inr_obj (d : json) (k : string) (v : json) :
  getitem d k = inr v -> exists kv, d = JObj kv /\ dict_lookup k kv = Some v.
Proof.
  destruct d; simpl; try discriminate.
  destruct (dict_lookup k d) eqn:E; [|discriminate].
  intros [= <-]. eauto.
Qed.

Lemma existsb_eq_str (lab : string) (cl : list json) :
  existsb (eq_str lab) cl = true <-> JStr lab ∈ cl.
Proof.
  rewrite existsb_exists. split.
  - intros (x & Hin & Hx). destruct x; simpl in Hx; try discriminate.
    apply String.eqb_eq in Hx. subst. by apply list_elem_of_In.
  - intros Hin. exists (JStr lab). split; [by apply list_elem_of_In|].
    simpl. apply eqb_string_refl.
Qed.

Lemma with_lab_elem (lab : string) (cl : list json) : JStr lab ∈ with_lab lab cl.
Proof.
  unfold with_lab. destruct (existsb (eq_str lab) cl) eqn:E.
  - by apply existsb_eq_str.
  - apply elem_of_app. right. apply list_elem_of_singleton. done.
Qed.

Lemma with_lab_idem (lab : string) (cl : list json) :
  with_lab lab (with_lab lab cl) = with_lab lab cl.
Proof.
  unfold with_lab at 1.
  by rewrite (proj2 (existsb_eq_str lab (with_lab lab cl)) (with_lab_elem lab cl)).
Qed.

Lemma with_lab_length (lab : string) (cl : list json) :
  (length cl <= length (with_lab lab cl) <= length cl + 1)%nat.
Proof.
  unfold with_lab. destruct (existsb (eq_str lab) cl).
  - lia.
  - rewrite length_app. simpl. lia.
Qed.

Ltac dict_simpl :=
  repeat first
    [ rewrite dict_lookup_set_eq
    | rewrite dict_lookup_set_ne by (intro; discriminate) ].

(** ** What one call of [complete_lab] or [start_lab] does *)

Lemma complete_lab_run (self : StudentSession) (lab : string) (v : Z) (σ : fs)
    (cl : list json) (total : json) (sc : Z) :
  completed self = inr (JList cl) ->
  total_score self = inr total ->
  as_int total = Some sc ->
  persisted σ self ≠ Some Dir ->
  exists s',
    complete_lab self lab v σ
      = (inr s', <[self.(session_file) := File (Decodes s'.(data))]> σ)
    /\ s'.(session_file) = self.(session_file)
    /\ s'.(student_id) = self.(student_id)
    /\ completed s' = inr (JList (with_lab lab cl))
    /\ total_score s' = inr (JInt (sc + v))
    /\ active_lab s' = inr JNull
    /\ attempts_map s' = attempts_map self.
Proof.
  unfold completed, total_score, persisted, active_lab, attempts_map.
  destruct self as [sid file d]. simpl. intros Hc Ht Hi Hd.
  destruct (getitem_inr_obj _ _ _ Hc) as (kv & -> & Hl).
  destruct (getitem_inr_obj _ _ _ Ht) as (? & [= <-] & Hs).
  unfold complete_lab, bind, lift, ret, save, json_dump, with_data, with_lab.
  cbn -[dict_set dict_lookup]. rewrite Hl. cbn -[dict_set dict_lookup].
  destruct (existsb (eq_str lab) cl) eqn:E; cbn -[dict_set dict_lookup];
    dict_simpl; rewrite Hs; unfold add_int; rewrite Hi;
    cbn -[dict_set dict_lookup];
    (destruct (σ !! file) as [[|]|] eqn:Hn; [done| |]);
    (eexists (Build_StudentSession _ _ _); split; [reflexivity|];
     cbn -[dict_set dict_lookup]; dict_simpl; rewrite ?Hl; done).
Qed.

Lemma start_lab_run (self : StudentSession) (lab now : string) (σ : fs)
    (am : dict) (n : Z) :
  attempts_map self = inr (JObj am) ->
  as_int (default (JInt 0) (dict_lookup lab am)) = Some n ->
  persisted σ self ≠ Some Dir ->
  exists s',
    start_lab self lab now σ
      = (inr s', <[self.(session_file) := File (Decodes s'.(data))]> σ)
    /\ s'.(session_file) = self.(session_file)
    /\ s'.(student_id) = self.(student_id)
    /\ active_lab s' = inr (JStr lab)
    /\ attempts_map s' = inr (JObj (dict_set lab (JInt (n + 1)) am))
    /\ completed s' = completed self
    /\ total_score s' = total_score self.
Proof.
  unfold completed, total_score, persisted, active_lab, attempts_map.
  destruct self as [sid file d]. simpl. intros Ha Hn Hd.
  destruct (getitem_inr_obj _ _ _ Ha) as (kv & -> & Hl).
  unfold start_lab, bind, lift, ret, save, json_dump, with_data.
  cbn -[dict_set dict_lookup]. dict_simpl. rewrite Hl.
  cbn -[dict_set dict_lookup]. unfold add_int. rewrite Hn.
  cbn -[dict_set dict_lookup].
  destruct (σ !! file) as [[|]|] eqn:Hf; [done| |];
    (eexists (Build_StudentSession _ _ _); split; [reflexivity|];
     cbn -[dict_set dict_lookup]; dict_simpl; done).
Qed.

Lemma with_lab_inv (lab : string) (cl : list json) (x : json) :
  x ∈ with_lab lab cl -> x ∈ cl \/ x = JStr lab.
Proof.
  unfold with_lab. destruct (existsb (eq_str lab) cl); [auto|].
  rewrite elem_of_app, list_elem_of_singleton. tauto.
Qed.

Lemma dict_lookup_set (k k' : string) (v : json) (d : dict) :
  dict_lookup k' (dict_set k v d)
  = if decide (k = k') then Some v else dict_lookup k' d.
Proof.
  destruct (decide (k = k')) as [->|Hne].
  - apply dict_lookup_set_eq.
  - by apply dict_lookup_set_ne.
Qed.

(** ** The invariant of the session store *)

Lemma new_session_inv (sid now : string) (σ : fs) (s : StudentSession) :
  σ !! path_join STATE_DIR (sid +:+ ".json") = None ->
  StudentSession_init sid now σ = (inr s, σ) ->
  session_inv s /\ persisted σ s ≠ Some Dir.
Proof.
  intros Hnone. unfold StudentSession_init, _load_or_create, bind, path_exists.
  rewrite Hnone. rewrite bool_decide_eq_false_2 by (intros [? ?]; done).
  cbn. intros [= <-]. split.
  - exists [], [], 0, JNull. repeat split; try done; try lia; [|by left].
    intros x Hx. by apply elem_of_nil in Hx.
  - unfold persisted. cbn. by rewrite Hnone.
Qed.

Lemma admissible_step (s : StudentSession) (σ : fs) (o : op) :
  session_inv s ->
  persisted σ s ≠ Some Dir ->
  admissible s o ->
  exists s' σ',
    run_op s o σ = (inr s', σ')
    /\ session_inv s' /\ persisted σ' s' ≠ Some Dir /\ grows s s'
    /\ s'.(student_id) = s.(student_id)
    /\ s'.(session_file) = s.(session_file)
    /\ σ' = <[s.(session_file) := File (Decodes s'.(data))]> σ.
Proof.
  intros (cl & am & sc & cur & Hc & Ha & Ht & Hcur & Hsc & Hcl & Ham & Hact)
    Hd Hadm.
  destruct o as [lab now|lab v]; simpl in *.
  - (* start_lab *)
    assert (exists n, as_int (default (JInt 0) (dict_lookup lab am)) = Some n
                      /\ 0 <= n
                      /\ (forall m, dict_lookup lab am = Some (JInt m) -> m = n))
      as (n & Hn & Hn0 & Hnm).
    { destruct (dict_lookup lab am) as [c|] eqn:E; simpl.
      - destruct (Ham _ _ E) as (m & -> & Hm). exists m. simpl.
        split; [done|]. split; [lia|]. by intros ? [= ->].
      - exists 0. split; [done|]. split; [lia|]. discriminate. }
    destruct (start_lab_run s lab now σ am n Ha Hn Hd)
      as (s' & Hrun & Hfile & Hsid & Hcur' & Ha' & Hc' & Ht').
    exists s', (<[session_file s := File (Decodes (data s'))]> σ).
    split; [done|]. split; [|split; [|split; [|done]]].
    + exists cl, (dict_set lab (JInt (n + 1)) am), sc, (JStr lab).
      rewrite Hc', Ht'. repeat split; try done.
      * intros x Hx. destruct (Hcl x Hx) as (l & -> & Hl). exists l.
        split; [done|]. rewrite dict_lookup_set. by case_decide.
      * intros l c. rewrite dict_lookup_set. case_decide.
        -- intros [= <-]. exists (n + 1). split; [done|lia].
        -- apply Ham.
      * right. exists lab. split; [done|]. by rewrite dict_lookup_set_eq.
    + unfold persisted. rewrite Hfile, lookup_insert_eq. done.
    + split.
      * intros l m. unfold attempt_count. rewrite Ha, Ha'.
        rewrite dict_lookup_set. case_decide.
        -- subst l. intros Hm. apply Hnm in Hm. subst m.
           exists (n + 1). split; [done|lia].
        -- intros Hm. exists m. split; [done|lia].
      * exists sc, sc. rewrite Ht'. repeat split; try done; lia.
  - (* complete_lab *)
    destruct Hadm as [Hstarted Hv].
    destruct (complete_lab_run s lab v σ cl (JInt sc) sc Hc Ht eq_refl Hd)
      as (s' & Hrun & Hfile & Hsid & Hc' & Ht' & Hcur' & Ha').
    exists s', (<[session_file s := File (Decodes (data s'))]> σ).
    split; [done|]. split; [|split; [|split; [|done]]].
    + exists (with_lab lab cl), am, (sc + v), JNull.
      rewrite Ha'. repeat split; try done; try lia; [|by left].
      intros x Hx. apply with_lab_inv in Hx as [Hx| ->]; [by apply Hcl|].
      exists lab. split; [done|].
      unfold attempt_count in Hstarted. by rewrite Ha in Hstarted.
    + unfold persisted. rewrite Hfile, lookup_insert_eq. done.
    + split.
      * intros l m. unfold attempt_count. rewrite Ha'. intros Hm.
        exists m. split; [done|lia].
      * exists sc, (sc + v). repeat split; try done; lia.
Qed.

Lemma reachable_inv (sid : string) (s : StudentSession) (σ : fs) :
  reachable sid s σ -> session_inv s /\ persisted σ s ≠ Some Dir.
Proof.
  induction 1 as [now σ s Hnone Hinit|s σ o s' σ' _ [IH1 IH2] Hadm Hrun].
  - by eapply new_session_inv.
  - destruct (admissible_step s σ o IH1 IH2 Hadm)
      as (s1 & σ1 & Hrun1 & Hinv & Hd & _).
    rewrite Hrun in Hrun1. injection Hrun1 as <- <-. done.
Qed.

(** ** Strings *)

Lemma append_cons (c : Ascii.ascii) (a b : string) :
  String c a +:+ b = String c (a +:+ b).
Proof. reflexivity. Qed.

Lemma append_assoc (a b c : string) : (a +:+ b) +:+ c = a +:+ (b +:+ c).
Proof.
  induction a as [|x a IH]; [done|].
  rewrite !append_cons. by rewrite IH.
Qed.

Lemma append_nonempty_r (a b : string) : b ≠ "" -> a +:+ b ≠ "".
Proof. destruct a; [done|]. rewrite append_cons. discriminate. Qed.

Lemma last_char_app (a b : string) :
  b ≠ "" -> last_char (a +:+ b) = last_char b.
Proof.
  intros Hb. induction a as [|x a IH]; [done|].
  rewrite append_cons. simpl.
  destruct (a +:+ b) eqn:E; [by apply append_nonempty_r in E|].
  exact IH.
Qed.

Lemma substring_of_unfold (needle hay : string) :
  substring_of needle hay
  = String.prefix needle hay
    || match hay with
       | EmptyString => false
       | String _ hay' => substring_of needle hay'
       end.
Proof. by destruct hay. Qed.

Lemma substring_of_app_r (needle a b : string) :
  substring_of needle b = true -> substring_of needle (a +:+ b) = true.
Proof.
  intros Hb. induction a as [|c a IH]; [done|].
  rewrite append_cons, substring_of_unfold, IH. apply orb_true_r.
Qed.

(** ** The verifier *)

Lemma timeout_expired_str (script : string) :
  exn_str (timeout_expired ["python3"; script] 30)
  = "Command '['python3', '" +:+ script +:+ "']' timed out after 30 seconds".
Proof.
  unfold timeout_expired, repr_argv.
  cbn [exn_str fmap list_fmap String.concat].
  change (pretty 30) with "30".
  rewrite !append_assoc. reflexivity.
Qed.

Lemma script_present (sd : string) (lab : LabDefinition) (σ : fs) :
  is_Some (σ !! script_path sd lab) ->
  get_verification_script sd lab σ = (inr (Some (script_path sd lab)), σ).
Proof.
  intros H. unfold get_verification_script, bind, path_exists, ret.
  fold (script_path sd lab). by rewrite bool_decide_eq_true_2.
Qed.

Lemma script_absent (sd : string) (lab : LabDefinition) (σ : fs) :
  σ !! script_path sd lab = None ->
  get_verification_script sd lab σ = (inr None, σ).
Proof.
  intros H. unfold get_verification_script, bind, path_exists, ret.
  fold (script_path sd lab). rewrite H.
  rewrite bool_decide_eq_false_2; [done|]. by intros [? ?].
Qed.

Lemma verify_with_script (sd : string) (lab : LabDefinition) (now : string)
    (run : run_outcome) (σ : fs) :
  is_Some (σ !! script_path sd lab) ->
  verify sd lab now run σ
  = (let '(results', raised) :=
       run_check [("lab_id", JStr lab.(lab_id)); ("timestamp", JStr now);
                  ("objectives_met", JList []); ("objectives_failed", JList []);
                  ("score", JInt 0); ("feedback", JList [])]
         ["python3"; script_path sd lab] run in
     match raised with
     | None => ret (JObj results')
     | Some e =>
         results'' <- lift (feedback_append results'
                              ("Verification error: " +:+ e.(exn_str)));;
         ret (JObj results'')
     end) σ.
Proof.
  intros H. unfold verify at 1, bind at 1. by rewrite script_present.
Qed.

Lemma verify_without_script (sd : string) (lab : LabDefinition) (now : string)
    (run : run_outcome) (σ : fs) :
  σ !! script_path sd lab = None ->
  verify sd lab now run σ
  = (inr (zero_result lab now "No automated verification available"), σ).
Proof.
  intros H. unfold verify, bind at 1. by rewrite script_absent.
Qed.

(** Merging an object whose "score" entries all satisfy [P] into a dictionary
    whose "score" entry satisfies [P]. *)
Lemma merge_score (P : json -> Prop) (kv d : dict) :
  (forall v, ("score", v) ∈ kv -> P v) ->
  (exists v, dict_lookup "score" d = Some v /\ P v) ->
  exists v,
    dict_lookup "score" (foldl (fun acc kv => dict_set kv.1 kv.2 acc) d kv)
    = Some v /\ P v.
Proof.
  revert d. induction kv as [|[k x] kv IH]; intros d Hkv Hd; [done|].
  simpl. apply IH.
  - intros v Hv. apply Hkv. by apply list_elem_of_further.
  - rewrite dict_lookup_set. case_decide as Hk.
    + subst k. exists x. split; [done|]. apply Hkv. apply list_elem_of_here.
    + done.
Qed.

Lemma zero_result_score (lab : LabDefinition) (now msg : string) :
  getitem (zero_result lab now msg) "score" = inr (JInt 0).
Proof. reflexivity. Qed.

Lemma verify_caught (sd : string) (lab : LabDefinition) (now : string)
    (run : run_outcome) (σ : fs) :
  is_Some (σ !! script_path sd lab) ->
  payload_of run = None ->
  exists msg, verify sd lab now run σ = (inr (zero_result lab now msg), σ).
Proof.
  intros Hs Hp. rewrite verify_with_script by done.
  destruct run as [rc out err| |e]; simpl in *.
  - destruct (rc =? 0) eqn:E.
    + destruct out as [v|m l c p]; [discriminate|]. by eexists.
    + by eexists.
  - by eexists.
  - by eexists.
Qed.

(** ** The catalog *)

Lemma LabDefinition_init_obj (lab_id : string) (cfg : dict) :
  LabDefinition_init lab_id (JObj cfg) = inr (definition_of lab_id cfg).
Proof. reflexivity. Qed.

Lemma LabDefinition_init_other (lab_id : string) (v : json) :
  (forall cfg, v ≠ JObj cfg) ->
  exists e, LabDefinition_init lab_id v = inl e.
Proof.
  intros H. destruct v; try (by eexists). by destruct (H d).
Qed.

Lemma path_exists_true (p : string) (σ : fs) (n : node) :
  σ !! p = Some n -> path_exists p σ = (inr true, σ).
Proof.
  intros H. unfold path_exists. by rewrite bool_decide_eq_true_2 by (by eexists).
Qed.

Lemma path_exists_false (p : string) (σ : fs) :
  σ !! p = None -> path_exists p σ = (inr false, σ).
Proof.
  intros H. unfold path_exists. rewrite H.
  by rewrite bool_decide_eq_false_2 by (by intros [? ?]).
Qed.

Lemma load_unfold (sd lab_id : string) (σ : fs) :
  load sd lab_id σ
  = match σ !! lab_file sd lab_id with
    | None => (inr None, σ)
    | Some _ =>
        (config <- json_load (lab_file sd lab_id);;
         lab <- lift (LabDefinition_init lab_id config);;
         ret (Some lab)) σ
    end.
Proof.
  unfold load. fold (lab_file sd lab_id). unfold bind at 1.
  destruct (σ !! lab_file sd lab_id) as [n|] eqn:E.
  - by rewrite (path_exists_true _ _ _ E).
  - by rewrite (path_exists_false _ _ E).
Qed.

Lemma load_frame (sd lab_id : string) (σ : fs) : (load sd lab_id σ).2 = σ.
Proof.
  rewrite load_unfold. unfold bind, json_load, lift, ret.
  destruct (σ !! lab_file sd lab_id) as [[|d]|] eqn:E; [done| |done].
  destruct (json_loads d); [done|].
  destruct (LabDefinition_init lab_id j); done.
Qed.

Lemma load_or_create_unfold (sid file now : string) (σ : fs) :
  _load_or_create sid file now σ
  = match σ !! file with
    | None => (inr (zero_state sid now), σ)
    | Some _ => json_load file σ
    end.
Proof.
  unfold _load_or_create, bind.
  destruct (σ !! file) as [n|] eqn:E.
  - by rewrite (path_exists_true _ _ _ E).
  - by rewrite (path_exists_false _ _ E).
Qed.

(** ** Running a computation step by step *)

Lemma bind_lift {A B} (r : res A) (k : A -> M B) (σ : fs) :
  bind (lift r) k σ = match r with inl e => (inl e, σ) | inr a => k a σ end.
Proof. by destruct r. Qed.

Lemma bind_run {A B} (m : M A) (k : A -> M B) (σ σ' : fs) (a : A) :
  m σ = (inr a, σ') -> bind m k σ = k a σ'.
Proof. intros H. unfold bind. by rewrite H. Qed.

Lemma truthy_str (s : string) : s ≠ "" -> truthy (JStr s) = true.
Proof. intros H. simpl. destruct s; [done|]. reflexivity. Qed.

Lemma seq_index_in_range {A} (l : list A) (i : Z) :
  0 <= i < Z.of_nat (length l) -> seq_index l i = l !! Z.to_nat i.
Proof.
  intros H. unfold seq_index.
  destruct (0 <=? i) eqn:E1; [|lia].
  destruct (i <? Z.of_nat (length l)) eqn:E2; [|lia].
  done.
Qed.

Lemma verify_frame (sd : string) (lab : LabDefinition) (now : string)
    (run : run_outcome) (σ : fs) :
  (verify sd lab now run σ).2 = σ.
Proof.
  destruct (σ !! script_path sd lab) as [n|] eqn:Hs.
  - rewrite verify_with_script by (by rewrite Hs).
    destruct (run_check _ _ run) as [results' [e|]]; [|done].
    rewrite bind_lift. by destruct (feedback_append _ _).
  - by rewrite verify_without_script.
Qed.

Lemma load_object (sd lab_id : string) (σ : fs) (cfg : dict) :
  σ !! lab_file sd lab_id = Some (File (Decodes (JObj cfg))) ->
  load sd lab_id σ = (inr (Some (definition_of lab_id cfg)), σ).
Proof.
  intros H. rewrite load_unfold, H. unfold bind, json_load. by rewrite H.
Qed.

Lemma load_some_inv (sd lab_id : string) (σ σ' : fs) (lab : LabDefinition) :
  load sd lab_id σ = (inr (Some lab), σ') ->
  exists cfg,
    σ !! lab_file sd lab_id = Some (File (Decodes (JObj cfg)))
    /\ lab = definition_of lab_id cfg.
Proof.
  rewrite load_unfold. unfold bind, json_load, lift, ret.
  destruct (σ !! lab_file sd lab_id) as [[|[v|m l c p]]|]; try discriminate.
  simpl. destruct v; try discriminate. intros [= <- <-]. by eexists.
Qed.

Lemma load_lab_id (sd l : string) (σ σ' : fs) (lab : LabDefinition) :
  load sd l σ = (inr (Some lab), σ') -> lab.(lab_id) = l.
Proof.
  intros H. by destruct (load_some_inv _ _ _ _ _ H) as (cfg & _ & ->).
Qed.

(** ** The commands *)

(** Whatever the result holds, a score below 70 leaves the store alone. *)
Lemma cmd_verify_below (sd : string) (session : StudentSession) (now : string)
    (run : run_outcome) (σ : fs) (l : string) (lab : LabDefinition)
    (results sc : json) (z : Z) :
  active_lab session = inr (JStr l) ->
  l ≠ "" ->
  load sd l σ = (inr (Some lab), σ) ->
  verify sd lab now run σ = (inr results, σ) ->
  getitem results "score" = inr sc ->
  as_int sc = Some z ->
  z < 70 ->
  (cmd_verify sd session now run σ).2 = σ.
Proof.
  intros Hcur Hl Hload Hver Hsc Hz Hlt.
  unfold cmd_verify. unfold active_lab in Hcur. rewrite bind_lift, Hcur.
  rewrite truthy_str by done. cbn [negb load_value].
  rewrite (bind_run _ _ _ _ _ Hload). rewrite (bind_run _ _ _ _ _ Hver).
  repeat (rewrite bind_lift;
          match goal with
          | |- context [match ?r with inl _ => _ | inr _ => _ end] =>
              destruct r; [done|]
          end).
  match goal with
  | |- context [if truthy ?v then _ else _] => destruct (truthy v)
  end.
  - injection Hsc as ->. unfold bind, lift, ret. cbn beta iota. rewrite Hz.
    assert (E : (70 <=? z) = false) by lia. rewrite E.
    by destruct (iterate _).
  - injection Hsc as ->. unfold bind, lift, ret. cbn beta iota. rewrite Hz.
    assert (E : (70 <=? z) = false) by lia. by rewrite E.
Qed.

Lemma cmd_verify_result (sd : string) (session : StudentSession) (now : string)
    (run : run_outcome) (σ : fs) (l : string) (lab : LabDefinition)
    (results : json) (z : Z) :
  active_lab session = inr (JStr l) ->
  l ≠ "" ->
  load sd l σ = (inr (Some lab), σ) ->
  verify sd lab now run σ = (inr results, σ) ->
  is_verification_result results z ->
  cmd_verify sd session now run σ
  = if 70 <=? z then
      (session' <- complete_lab session l z;;
       ret (session', LabCompleted results)) σ
    else (inr (session, NotQuiteThere results), σ).
Proof.
  intros Hcur Hl Hload Hver (met & failed & fb & Hm & Hf & Hfb & Hsc).
  unfold cmd_verify. unfold active_lab in Hcur. rewrite bind_lift, Hcur.
  rewrite truthy_str by done. cbn [negb load_value].
  rewrite (bind_run _ _ _ _ _ Hload). rewrite (bind_run _ _ _ _ _ Hver).
  rewrite (load_lab_id _ _ _ _ _ Hload).
  rewrite bind_lift, Hm. cbn beta iota. rewrite bind_lift. cbn [iterate].
  rewrite bind_lift, Hf. cbn beta iota. rewrite bind_lift. cbn [iterate].
  rewrite bind_lift, Hsc. cbn beta iota. rewrite bind_lift, Hfb. cbn beta iota.
  assert (Hblock :
    (if truthy (JList fb)
     then feedback <- lift (inr (JList fb));;
          lift (iterate feedback);;; ret ()
     else ret ()) σ = (inr (), σ)).
  { destruct (truthy (JList fb)); [|done]. by rewrite !bind_lift. }
  rewrite (bind_run _ _ _ _ _ Hblock).
  rewrite bind_lift. cbn [as_int].
  by destruct (70 <=? z).
Qed.


Lemma save_run (s : StudentSession) (σ σ' : fs) (r : res unit) :
  save s σ = (r, σ') ->
  match r with
  | inl _ => σ' = σ
  | inr _ => σ' = <[session_file s := File (Decodes (data s))]> σ
  end.
Proof.
  unfold save, json_dump.
  destruct (σ !! session_file s) as [[|]|]; by intros [= <- <-].
Qed.

Ltac run_save σ :=
  cbv zeta; unfold bind, ret;
  match goal with
  | |- context [save ?x σ] =>
      let E := fresh "E" in
      destruct (save x σ) as [[?|[]] ?] eqn:E; [discriminate|];
      intros [= <- <-]; by apply save_run in E
  end.

Lemma bind_assoc {A B C} (m : M A) (f : A -> M B) (g : B -> M C) (σ : fs) :
  bind (bind m f) g σ = bind m (fun x => bind (f x) g) σ.
Proof. unfold bind. destruct (m σ) as [[e|a] σ']; done. Qed.

Lemma bind_ret {A B} (a : A) (k : A -> M B) (σ : fs) : bind (ret a) k σ = k a σ.
Proof. reflexivity. Qed.

Ltac run_lifts :=
  repeat (first [rewrite bind_assoc | rewrite bind_ret | rewrite bind_lift];
          try match goal with
              | |- context [match ?r with inl _ => _ | inr _ => _ end] =>
                  lazymatch r with
                  | inr _ => fail
                  | inl _ => fail
                  | _ => destruct r; [discriminate|]
                  end
              end;
          cbn beta iota).

Lemma start_lab_saves (s : StudentSession) (lab t : string) (σ σ' : fs)
    (s' : StudentSession) :
  start_lab s lab t σ = (inr s', σ') ->
  σ' = <[session_file s := File (Decodes (data s'))]> σ.
Proof.
  unfold start_lab. run_lifts. run_save σ.
Qed.

Lemma complete_lab_saves (s : StudentSession) (lab : string) (v : Z)
    (σ σ' : fs) (s' : StudentSession) :
  complete_lab s lab v σ = (inr s', σ') ->
  σ' = <[session_file s := File (Decodes (data s'))]> σ.
Proof.
  unfold complete_lab. run_lifts.
  match goal with
  | |- context [if ?b then _ else _] => destruct b
  end; run_lifts; run_save σ.
Qed.

(** [cmd_verify] either leaves the session and the files as they are, or
    completes the active lab with a score of at least 70. *)
Lemma cmd_verify_cases (sd : string) (s : StudentSession) (now : string)
    (run : run_outcome) (σ σ' : fs) (s' : StudentSession) (out : verify_output) :
  cmd_verify sd s now run σ = (inr (s', out), σ') ->
  (s' = s /\ σ' = σ /\ forall results, out ≠ LabCompleted results)
  \/ exists l z results,
       out = LabCompleted results
       /\ active_lab s = inr (JStr l)
       /\ 70 <= z
       /\ complete_lab s l z σ = (inr s', σ').
Proof.
  unfold cmd_verify, active_lab. rewrite bind_lift.
  destruct (getitem (data s) "current_lab") as [e|cur]; [discriminate|].
  destruct (truthy cur); cbn [negb]; [|by intros [= <- <- <-]; left].
  destruct cur as [| | |l| |]; try discriminate. cbn [load_value].
  unfold bind at 1.
  pose proof (load_frame sd l σ) as Hlf.
  destruct (load sd l σ) as [[e|[lab|]] σ1] eqn:Hload; [discriminate| |];
    simpl in Hlf; subst σ1; [|by intros [= <- <- <-]; left].
  apply load_lab_id in Hload. subst l.
  unfold bind at 1.
  pose proof (verify_frame sd lab now run σ) as Hvf.
  destruct (verify sd lab now run σ) as [[e|res] σ1]; [discriminate|].
  simpl in Hvf. subst σ1.
  do 6 (rewrite bind_lift;
        match goal with
        | |- context [match ?r with inl _ => _ | inr _ => _ end] =>
            destruct r; [discriminate|]
        end).
  match goal with
  | |- context [if truthy ?v then _ else _] =>
      assert (Hblock : exists r,
        (if truthy v
         then feedback <- lift (inr v);; lift (iterate feedback);;; ret ()
         else ret ()) σ = (r, σ))
  end.
  { destruct (truthy _); [|by eexists]. rewrite bind_lift.
    rewrite bind_lift. destruct (iterate _); by eexists. }
  destruct Hblock as [r Hblock]. unfold bind at 1. rewrite Hblock.
  destruct r as [e|[]]; [discriminate|].
  rewrite bind_lift.
  match goal with
  | |- context [as_int ?v] => destruct (as_int v) as [z|]; [|discriminate]
  end.
  destruct (70 <=? z) eqn:E; [|by intros [= <- <- <-]; left].
  unfold bind, ret.
  destruct (complete_lab s (lab_id lab) z σ) as [[e|s1] σ1] eqn:Hcl;
    [discriminate|].
  intros [= <- <- <-]. right. exists (lab_id lab), z, res.
  split; [done|]. split; [done|]. split; [lia|done].
Qed.

(** The sessions of [reachable] are closed under [cmd_verify]. *)
Lemma cmd_verify_reachable (sd sid : string) (s : StudentSession) (now : string)
    (run : run_outcome) (σ σ' : fs) (s' : StudentSession) (out : verify_output) :
  reachable sid s σ ->
  cmd_verify sd s now run σ = (inr (s', out), σ') ->
  reachable sid s' σ'.
Proof.
  intros Hr Hv.
  destruct (cmd_verify_cases _ _ _ _ _ _ _ _ Hv)
    as [(-> & -> & _)|(l & z & results & _ & Hcur & Hz & Hcl)]; [done|].
  apply (reach_op sid s σ (CompleteLab l z)); [done| |done].
  destruct (reachable_inv sid s σ Hr)
    as [(cl & am & sc & cur & _ & Ha & _ & Hcur' & _ & _ & _ & Hact) _].
  split; [|lia]. rewrite Hcur in Hcur'. injection Hcur' as <-.
  destruct Hact as [?|(lab & [= <-] & Hl)]; [done|].
  unfold attempt_count. by rewrite Ha.
Qed.

(** ** Sessions across invocations

    Every command runs in a process of its own, which loads the session
    again: what it loads is the session the previous command left. *)

Lemma reachable_persisted (sid : string) (s : StudentSession) (σ : fs) :
  reachable sid s σ ->
  s.(student_id) = sid
  /\ s.(session_file) = path_join STATE_DIR (sid +:+ ".json")
  /\ (persisted σ s = None
      \/ persisted σ s = Some (File (Decodes s.(data)))).
Proof.
  induction 1 as [now σ s Hnone Hinit|s σ o s' σ' Hr (IH1 & IH2 & IH3) Hadm Hrun].
  - revert Hinit. unfold StudentSession_init, bind.
    rewrite load_or_create_unfold, Hnone. intros [= <-].
    split; [done|]. split; [done|]. by left.
  - destruct (reachable_inv sid s σ Hr) as [Hinv Hd].
    destruct (admissible_step s σ o Hinv Hd Hadm)
      as (s1 & σ1 & Hrun1 & _ & _ & _ & Hsid & Hfile & Hσ).
    rewrite Hrun in Hrun1. injection Hrun1 as <- <-.
    split; [congruence|]. split; [congruence|]. right.
    unfold persisted. rewrite Hσ, Hfile. apply lookup_insert_eq.
Qed.

Lemma reachable_reload (sid now : string) (s : StudentSession) (σ : fs) :
  reachable sid s σ ->
  persisted σ s ≠ None ->
  StudentSession_init sid now σ = (inr s, σ).
Proof.
  intros Hr Hsome.
  destruct (reachable_persisted sid s σ Hr) as (Hsid & Hfile & [Hp|Hp]); [done|].
  unfold persisted in Hp. rewrite Hfile in Hp.
  unfold StudentSession_init, bind. rewrite load_or_create_unfold.
  unfold json_load. rewrite Hp. cbn [json_loads ret].
  destruct s as [sid' file d]; simpl in *. by subst.
Qed.

Lemma get_starter_code_frame (sd : string) (lab : LabDefinition) (σ : fs) :
  (get_starter_code sd lab σ).2 = σ.
Proof.
  unfold get_starter_code, bind, path_exists, read_text, ret.
  destruct (bool_decide _); [|done].
  by destruct (σ !! _) as [[|t]|].
Qed.

(** The sessions of [reachable] are closed under [cmd_start]. *)
Lemma cmd_start_reachable (sd sid : string) (s : StudentSession)
    (lab now : string) (σ σ' : fs) (s' : StudentSession) (out : start_output) :
  reachable sid s σ ->
  cmd_start sd s lab now σ = (inr (s', out), σ') ->
  reachable sid s' σ'.
Proof.
  intros Hr. unfold cmd_start. unfold bind at 1.
  pose proof (load_frame sd lab σ) as Hlf.
  destruct (load sd lab σ) as [[e|[d|]] σ1]; [discriminate| |];
    simpl in Hlf; subst σ1; [|by intros [= <- <- <-]].
  rewrite bind_lift. destruct (iterate _); [discriminate|].
  unfold bind at 1.
  pose proof (get_starter_code_frame sd d σ) as Hsf.
  destruct (get_starter_code sd d σ) as [[e|starter] σ1]; [discriminate|].
  simpl in Hsf. subst σ1. unfold bind, ret.
  destruct (start_lab s lab now σ) as [[e|s1] σ1] eqn:Hst; [discriminate|].
  intros [= <- <- <-].
  by apply (reach_op sid s σ (StartLab lab now)).
Qed.

(** ** Output that is a JSON array

    [dict.update] reads an array as a sequence of pairs and stores each pair
    as it reads it. *)

Lemma update_pairs_pairs (i : nat) (kvs : list (string * json))
    (tail : list json) (d : dict) :
  update_pairs i ((pair_item <$> kvs) ++ tail)%list d
  = update_pairs (i + length kvs) tail
      (foldl (fun acc kv => dict_set kv.1 kv.2 acc) d kvs).
Proof.
  revert i d. induction kvs as [|[k v] kvs IH]; intros i d.
  - simpl. by rewrite Nat.add_0_r.
  - simpl. rewrite IH. f_equal. lia.
Qed.

Lemma pair_of_error_last (i : nat) (item : json) (e : exn) :
  pair_of i item = inl e ->
  last_char e.(exn_str) = last_char "e" \/ last_char e.(exn_str) = last_char "d".
Proof.
  unfold pair_of.
  set (items := match item with
                | JList l => Some l
                | JStr s => Some (chars s)
                | JObj d => Some (JStr <$> dict_keys d)
                | _ => None
                end).
  destruct items as [[|a [|b [|c l]]]|]; intros [= <-]; cbn [exn_str];
    rewrite ?last_char_app by (repeat apply append_nonempty_r; discriminate);
    auto.
Qed.

Lemma timed_out_last (argv : string) :
  last_char ("Verification error: Command '" +:+ argv
             +:+ "' timed out after 30 seconds") = last_char "s".
Proof.
  rewrite !last_char_app by (repeat apply append_nonempty_r; discriminate).
  reflexivity.
Qed.

(** ** The claims *)

(** C1.  On a session whose completed set is the list [cl] and whose score is
    the integer [sc], [complete_lab s L v] succeeds, saves the record, leaves
    [cl] as it is when [L] is already in it and appends [L] otherwise, makes
    the score [sc + v] and clears the active lab.  A second call with the
    same [L] and [v] leaves the completed set as the first call left it (so it
    has grown by at most one element in all) and adds [v] again. *)
Theorem complete_lab_twice (s : StudentSession) (L : string) (v : Z) (σ : fs)
    (cl : list json) (total : json) (sc : Z) :
  completed s = inr (JList cl) ->
  total_score s = inr total ->
  as_int total = Some sc ->
  persisted σ s ≠ Some Dir ->
  exists s1 σ1 s2 σ2 cl1,
    complete_lab s L v σ = (inr s1, σ1)
    /\ complete_lab s1 L v σ1 = (inr s2, σ2)
    /\ completed s1 = inr (JList cl1)
    /\ (JStr L ∈ cl -> cl1 = cl)
    /\ (JStr L ∉ cl -> cl1 = (cl ++ [JStr L])%list)
    /\ total_score s1 = inr (JInt (sc + v))
    /\ active_lab s1 = inr JNull
    /\ persisted σ1 s1 = Some (File (Decodes s1.(data)))
    /\ completed s2 = inr (JList cl1)
    /\ (length cl1 <= length cl + 1)%nat
    /\ total_score s2 = inr (JInt (sc + v + v))
    /\ active_lab s2 = inr JNull
    /\ persisted σ2 s2 = Some (File (Decodes s2.(data))).
Proof.
  intros Hc Ht Hi Hd.
  destruct (complete_lab_run s L v σ cl total sc Hc Ht Hi Hd)
    as (s1 & Hrun1 & Hf1 & _ & Hc1 & Ht1 & Hl1 & _).
  assert (Hd1 : persisted (<[session_file s := File (Decodes (data s1))]> σ) s1
                ≠ Some Dir).
  { unfold persisted. rewrite Hf1, lookup_insert_eq. done. }
  destruct (complete_lab_run s1 L v _ _ _ _ Hc1 Ht1 eq_refl Hd1)
    as (s2 & Hrun2 & Hf2 & _ & Hc2 & Ht2 & Hl2 & _).
  rewrite with_lab_idem in Hc2.
  eexists s1, _, s2, _, (with_lab L cl).
  split; [exact Hrun1|]. split; [exact Hrun2|]. split; [exact Hc1|].
  split; [|split].
  { intros Hin. unfold with_lab.
    by rewrite (proj2 (existsb_eq_str L cl) Hin). }
  { intros Hnin. unfold with_lab.
    destruct (existsb (eq_str L) cl) eqn:E; [|done].
    by apply existsb_eq_str in E. }
  split; [exact Ht1|]. split; [exact Hl1|]. split.
  { unfold persisted. by rewrite Hf1, lookup_insert_eq. }
  split; [exact Hc2|]. split; [apply with_lab_length|].
  split; [exact Ht2|]. split; [exact Hl2|].
  unfold persisted. by rewrite Hf2, lookup_insert_eq.
Qed.

Lemma complete_lab_twice_witness :
  exists s1 σ1 s2 σ2 cl1,
    complete_lab fresh_session "lab-01" 85 ∅ = (inr s1, σ1)
    /\ complete_lab s1 "lab-01" 85 σ1 = (inr s2, σ2)
    /\ completed s1 = inr (JList cl1)
    /\ (JStr "lab-01" ∈ [] -> cl1 = [])
    /\ (JStr "lab-01" ∉ [] -> cl1 = ([] ++ [JStr "lab-01"])%list)
    /\ total_score s1 = inr (JInt (0 + 85))
    /\ active_lab s1 = inr JNull
    /\ persisted σ1 s1 = Some (File (Decodes s1.(data)))
    /\ completed s2 = inr (JList cl1)
    /\ (length cl1 <= length (@nil json) + 1)%nat
    /\ total_score s2 = inr (JInt (0 + 85 + 85))
    /\ active_lab s2 = inr JNull
    /\ persisted σ2 s2 = Some (File (Decodes s2.(data))).
Proof.
  apply (complete_lab_twice fresh_session "lab-01" 85 ∅ [] (JInt 0) 0).
  - reflexivity.
  - reflexivity.
  - reflexivity.
  - discriminate.
Defined.

(** C2, as amended.  Take the sessions reached from a student's first access
    by [start_lab] and by [complete_lab] applied to a lab that has been
    started, with a score that is not negative.  In each of them every
    completed lab has an attempt count, every attempt count is an integer
    that is at least 1, and the score is not negative; and each further such
    operation succeeds, lowers no attempt count and does not lower the
    score. *)
Theorem reachable_session_invariant (sid : string) (s : StudentSession) (σ : fs) :
  reachable sid s σ ->
  session_inv s
  /\ forall o, admissible s o ->
       exists s' σ', run_op s o σ = (inr s', σ') /\ grows s s'.
Proof.
  intros Hr. destruct (reachable_inv sid s σ Hr) as [Hinv Hd].
  split; [done|]. intros o Hadm.
  destruct (admissible_step s σ o Hinv Hd Hadm)
    as (s' & σ' & Hrun & _ & _ & Hg & _).
  eauto.
Qed.

Lemma reachable_session_invariant_witness :
  reachable "student-01" finished_session finished_store
  /\ completed finished_session = inr (JList [JStr "lab-01"])
  /\ attempt_count finished_session "lab-01" = Some (JInt 1)
  /\ total_score finished_session = inr (JInt 85)
  /\ session_inv finished_session
  /\ (exists s' σ',
        run_op finished_session (CompleteLab "lab-01" 40) finished_store
        = (inr s', σ')
        /\ grows finished_session s')
  /\ (exists s' σ',
        run_op finished_session (StartLab "lab-01" t1) finished_store
        = (inr s', σ')
        /\ grows finished_session s').
Proof.
  assert (Hr : reachable "student-01" finished_session finished_store).
  { apply (reach_op "student-01" started_session started_store
             (CompleteLab "lab-01" 85)).
    - apply (reach_op "student-01" fresh_session ∅ (StartLab "lab-01" t1)).
      + apply (reach_new "student-01" t0); reflexivity.
      + exact I.
      + reflexivity.
    - split; [by eexists|]. discriminate.
    - reflexivity. }
  destruct (reachable_session_invariant "student-01" finished_session
              finished_store Hr) as [Hinv Hstep].
  split; [exact Hr|]. split; [reflexivity|]. split; [reflexivity|].
  split; [reflexivity|]. split; [exact Hinv|]. split.
  - apply (Hstep (CompleteLab "lab-01" 40)).
    split; [by eexists|]. discriminate.
  - apply (Hstep (StartLab "lab-01" t1)). exact I.
Defined.

(** C2, as stated, fails: completing a lab that was never started records it
    as completed without an attempt count, and a negative score lowers the
    cumulative score. *)
Lemma complete_unstarted_lab_counterexample :
  StudentSession_init "student-01" t0 ∅ = (inr fresh_session, ∅)
  /\ total_score fresh_session = inr (JInt 0)
  /\ complete_lab fresh_session "lab-01" (-5) ∅
     = (inr unstarted_completed,
        {[ "/var/lib/ai-agents-lab/state/student-01.json"
           := File (Decodes unstarted_completed.(data)) ]})
  /\ completed unstarted_completed = inr (JList [JStr "lab-01"])
  /\ attempt_count unstarted_completed "lab-01" = None
  /\ total_score unstarted_completed = inr (JInt (-5)).
Proof. repeat split. Qed.




(** C6.  For a lab that has no verification procedure, whatever running one
    would have done, [verify] returns the result with no objective met or
    failed, score 0 and the one feedback entry "No automated verification
    available", and leaves the files as they are; its score is below 70. *)
Theorem verify_without_procedure (sd : string) (lab : LabDefinition)
    (now : string) (run : run_outcome) (σ : fs) :
  σ !! script_path sd lab = None ->
  verify sd lab now run σ
  = (inr (zero_result lab now "No automated verification available"), σ)
  /\ forall results,
       (verify sd lab now run σ).1 = inr results ->
       getitem results "score" = inr (JInt 0) /\ 0 < 70.
Proof.
  intros H. rewrite (verify_without_script sd lab now run σ H).
  split; [done|]. intros results [= <-]. split; [reflexivity|lia].
Qed.

Lemma verify_without_procedure_witness :
  labs_plain !! script_path install_dir recon_lab = None
  /\ verify install_dir recon_lab t0 passing labs_plain
     = (inr (zero_result recon_lab t0 "No automated verification available"),
        labs_plain).
Proof.
  assert (H : labs_plain !! script_path install_dir recon_lab = None)
    by reflexivity.
  split; [exact H|].
  exact (proj1 (verify_without_procedure install_dir recon_lab t0 passing
                  labs_plain H)).
Defined.

(** C7, as stated, fails: a procedure that exits with code 0 and reports a
    score of 150 gets a result with score 150. *)
Lemma verify_score_unchecked_counterexample :
  verify install_dir recon_lab t0 overscored labs_checked
  = (inr overscored_result, labs_checked)
  /\ getitem overscored_result "score" = inr (JInt 150)
  /\ ~ (0 <= 150 <= 100).
Proof. split; [reflexivity|]. split; [reflexivity|lia]. Qed.

(** C7, as amended.  [verify] does not check the score it is handed.  When
    the payload taken as the result, if there is one, is an object whose
    "score" entries are integers between 0 and 100, [verify] returns a result
    whose score is an integer between 0 and 100; it is 0 when there is no
    payload. *)
Theorem verify_score_in_range (sd : string) (lab : LabDefinition)
    (now : string) (run : run_outcome) (σ : fs) :
  (forall payload, payload_of run = Some payload ->
     exists kv, payload = JObj kv
       /\ forall v, ("score", v) ∈ kv -> exists z, v = JInt z /\ 0 <= z <= 100) ->
  exists results z,
    verify sd lab now run σ = (inr results, σ)
    /\ getitem results "score" = inr (JInt z)
    /\ 0 <= z <= 100
    /\ (payload_of run = None -> z = 0).
Proof.
  intros Hp.
  destruct (σ !! script_path sd lab) as [n|] eqn:Hs.
  - assert (Hs' : is_Some (σ !! script_path sd lab)) by (by rewrite Hs).
    destruct (payload_of run) as [payload|] eqn:E.
    + destruct (Hp payload eq_refl) as (kv & -> & Hkv).
      destruct run as [rc out err| |e]; simpl in E; try discriminate.
      destruct out as [v|]; [|discriminate].
      destruct (rc =? 0) eqn:Hrc; [|discriminate]. injection E as ->.
      rewrite verify_with_script by done. unfold run_check. rewrite Hrc.
      cbn [json_loads dict_update ret].
      match goal with
      | |- context [foldl _ ?d kv] =>
          destruct (merge_score (fun v => exists z, v = JInt z /\ 0 <= z <= 100)
                      kv d Hkv) as (v & Hv & z & -> & Hz)
      end.
      { exists (JInt 0). split; [reflexivity|]. exists 0. split; [done|lia]. }
      eexists _, z. split; [reflexivity|]. cbn [getitem]. rewrite Hv.
      split; [done|]. split; [done|]. discriminate.
    + destruct (verify_caught sd lab now run σ Hs' E) as (msg & ->).
      eexists _, 0. split; [reflexivity|]. split; [reflexivity|].
      split; [lia|done].
  - rewrite verify_without_script by done.
    eexists _, 0. split; [reflexivity|]. split; [reflexivity|].
    split; [lia|done].
Qed.

Lemma verify_score_in_range_witness :
  exists results z,
    verify install_dir recon_lab t0 passing labs_checked
    = (inr results, labs_checked)
    /\ getitem results "score" = inr (JInt z)
    /\ 0 <= z <= 100
    /\ (payload_of passing = None -> z = 0).
Proof.
  apply (verify_score_in_range install_dir recon_lab t0 passing labs_checked).
  intros payload [= <-]. eexists. split; [reflexivity|].
  intros v Hv. exists 85. split; [|lia].
  repeat (apply elem_of_cons in Hv as [[= ?]|Hv]; try done).
  by apply elem_of_nil in Hv.
Defined.

(** C8, as stated, fails: when the file that backs a lab is there and is not
    a JSON text, [load] neither returns a definition nor reports that the lab
    is not found; it raises the decoder's error. *)
Lemma load_malformed_counterexample :
  load install_dir "lab-01-recon" labs_corrupt
  = (inl (Exn JSONDecodeError "Expecting value: line 1 column 1 (char 0)"),
     labs_corrupt).
Proof. reflexivity. Qed.

(** C8, as amended.  [load] reports that the lab is not found when no file
    backs the identifier; returns the definition with every field set, from
    the file or by default, when the file holds a JSON object; and raises,
    returning no definition, when the file holds anything else or is a
    directory.  It never changes a file. *)
Theorem load_outcomes (sd lab_id : string) (σ : fs) :
  (σ !! lab_file sd lab_id = None -> load sd lab_id σ = (inr None, σ))
  /\ (forall cfg,
        σ !! lab_file sd lab_id = Some (File (Decodes (JObj cfg))) ->
        load sd lab_id σ = (inr (Some (definition_of lab_id cfg)), σ))
  /\ (forall n,
        σ !! lab_file sd lab_id = Some n ->
        (forall cfg, n ≠ File (Decodes (JObj cfg))) ->
        exists e, load sd lab_id σ = (inl e, σ))
  /\ (forall lab σ',
        load sd lab_id σ = (inr (Some lab), σ') ->
        exists cfg,
          σ !! lab_file sd lab_id = Some (File (Decodes (JObj cfg)))
          /\ lab = definition_of lab_id cfg).
Proof.
  rewrite load_unfold. unfold bind, json_load, lift, ret.
  destruct (σ !! lab_file sd lab_id) as [n|] eqn:E.
  - split; [discriminate|]. split; [|split].
    + intros cfg [= ->]. reflexivity.
    + intros n' [= <-] Hn. destruct n as [|[v|m l c p]]; try (by eexists).
      simpl. destruct (LabDefinition_init_other lab_id v) as (e & ->).
      * intros cfg ->. by apply (Hn cfg).
      * by eexists.
    + intros lab σ'. destruct n as [|[v|m l c p]]; try discriminate.
      simpl. destruct v; try discriminate. intros [= <- <-]. by eexists.
  - split; [done|]. split; [discriminate|]. split; [discriminate|].
    discriminate.
Qed.

Lemma load_outcomes_witness :
  labs_plain !! lab_file install_dir "lab-01-recon"
  = Some (File (Decodes recon_config))
  /\ load install_dir "lab-01-recon" labs_plain = (inr (Some recon_lab), labs_plain)
  /\ (∅ : fs) !! lab_file install_dir "lab-01-recon" = None
  /\ load install_dir "lab-01-recon" ∅ = (inr None, ∅).
Proof.
  split; [reflexivity|]. split; [|split; [reflexivity|]].
  - exact (proj1 (proj2 (load_outcomes install_dir "lab-01-recon" labs_plain))
             _ eq_refl).
  - exact (proj1 (load_outcomes install_dir "lab-01-recon" ∅) eq_refl).
Defined.

(** C9, as stated, fails: when the record of a student is there and is not a
    JSON text, constructing the session raises the decoder's error. *)
Lemma get_malformed_counterexample :
  StudentSession_init "student-01" t0 state_corrupt
  = (inl (Exn JSONDecodeError "Expecting value: line 1 column 1 (char 0)"),
     state_corrupt).
Proof. reflexivity. Qed.

(** C9, as amended.  When a student has no record, [_load_or_create] returns
    the zero state: no active lab, nothing completed, no attempts, score 0.
    When the record holds a JSON text it returns the decoded value as it is.
    It raises when the record is not a JSON text or is a directory.  It
    writes nothing. *)
Theorem load_or_create_outcomes (sid file now : string) (σ : fs) :
  (σ !! file = None ->
     _load_or_create sid file now σ = (inr (zero_state sid now), σ)
     /\ getitem (zero_state sid now) "current_lab" = inr JNull
     /\ getitem (zero_state sid now) "completed_labs" = inr (JList [])
     /\ getitem (zero_state sid now) "attempts" = inr (JObj [])
     /\ getitem (zero_state sid now) "score" = inr (JInt 0))
  /\ (forall v, σ !! file = Some (File (Decodes v)) ->
        _load_or_create sid file now σ = (inr v, σ))
  /\ (forall msg l c p, σ !! file = Some (File (Undecodable msg l c p)) ->
        _load_or_create sid file now σ = (inl (decode_error msg l c p), σ))
  /\ (σ !! file = Some Dir ->
        exists e, _load_or_create sid file now σ = (inl e, σ)).
Proof.
  rewrite load_or_create_unfold. unfold json_load.
  destruct (σ !! file) as [n|] eqn:E.
  - split; [discriminate|]. split; [|split].
    + by intros v [= ->].
    + by intros msg l c p [= ->].
    + intros [= ->]. by eexists.
  - split; [done|]. split; [discriminate|]. split; discriminate.
Qed.

Lemma load_or_create_outcomes_witness :
  (∅ : fs) !! "/var/lib/ai-agents-lab/state/student-01.json" = None
  /\ _load_or_create "student-01"
       "/var/lib/ai-agents-lab/state/student-01.json" t0 ∅
     = (inr (zero_state "student-01" t0), ∅).
Proof.
  split; [reflexivity|].
  exact (proj1 (proj1 (load_or_create_outcomes "student-01"
                         "/var/lib/ai-agents-lab/state/student-01.json" t0 ∅)
                  eq_refl)).
Defined.

(** C4.  In a session whose active lab has [k >= 1] hints and whose attempt
    number for that lab is [n >= 1] (1 when no attempt is recorded),
    [cmd_hint] shows the hint at index [min (n - 1) (k - 1)], numbered from
    1, and changes no file; for [n > k] that index is [k - 1]. *)
Theorem hint_clamp (sd : string) (session : StudentSession) (σ : fs)
    (lab : string) (cfg : dict) (hs : list json) (am : dict) (n : Z) :
  active_lab session = inr (JStr lab) ->
  lab ≠ "" ->
  σ !! lab_file sd lab = Some (File (Decodes (JObj cfg))) ->
  dict_lookup "hints" cfg = Some (JList hs) ->
  attempts_map session = inr (JObj am) ->
  default (JInt 1) (dict_lookup lab am) = JInt n ->
  1 <= n ->
  (1 <= length hs)%nat ->
  let k := Z.of_nat (length hs) in
  let i := Z.min (n - 1) (k - 1) in
  exists h,
    hs !! Z.to_nat i = Some h
    /\ cmd_hint sd session σ = (inr (Hint (i + 1) h), σ)
    /\ (k < n -> i = k - 1).
Proof.
  intros Hcur Hlab Hfile Hhints Ham Hn Hn1 Hk k i.
  assert (Hi : 0 <= i < k) by (unfold i, k; lia).
  destruct (lookup_lt_is_Some_2 hs (Z.to_nat i)) as [h Hh];
    [unfold k in Hi; lia|].
  exists h. split; [done|]. split; [|unfold i; lia].
  unfold cmd_hint. unfold active_lab in Hcur. rewrite bind_lift, Hcur.
  rewrite truthy_str by done. cbn [negb load_value].
  rewrite (bind_run _ _ σ σ (Some (definition_of lab cfg))).
  2:{ by apply load_object. }
  cbn [hints definition_of lab_id]. rewrite Hhints. cbn [default from_option id].
  assert (Ht : truthy (JList hs) = true)
    by (destruct hs; [simpl in Hk; lia|done]).
  rewrite Ht. cbn [negb].
  unfold attempts_map in Ham. rewrite bind_lift, Ham.
  rewrite bind_lift. cbn [dict_get]. rewrite Hn.
  rewrite bind_lift. cbn [add_int as_int].
  rewrite bind_lift. cbn [len]. fold k.
  replace (n + -1) with (n - 1) by lia. fold i.
  rewrite bind_lift. cbn [index]. rewrite seq_index_in_range by done.
  rewrite Hh. reflexivity.
Qed.

Lemma hint_clamp_witness :
  exists h,
    [JStr "Try asking the red agent to scan for open ports";
     JStr "Check common ports: 22, 80, 443"] !! Z.to_nat (Z.min (5 - 1) (2 - 1))
    = Some h
    /\ cmd_hint install_dir retrying_session labs_plain
       = (inr (Hint (Z.min (5 - 1) (2 - 1) + 1) h), labs_plain)
    /\ (2 < 5 -> Z.min (5 - 1) (2 - 1) = 2 - 1).
Proof.
  apply (hint_clamp install_dir retrying_session labs_plain "lab-01-recon"
           [("title", JStr "Basic Network Reconnaissance");
            ("difficulty", JStr "beginner");
            ("objectives", JList [JStr "Identify all open ports on the target"]);
            ("hints", JList [JStr "Try asking the red agent to scan for open ports";
                             JStr "Check common ports: 22, 80, 443"])]
           [JStr "Try asking the red agent to scan for open ports";
            JStr "Check common ports: 22, 80, 443"]
           [("lab-01-recon", JInt 5)] 5).
  - reflexivity.
  - discriminate.
  - reflexivity.
  - reflexivity.
  - reflexivity.
  - reflexivity.
  - lia.
  - simpl. lia.
Defined.

(** C5.  [verify] writes no file and hands on the score it is given, below
    70 as well as above: the threshold is applied in [cmd_verify].  For an
    active lab whose verification result has a score below 70, [cmd_verify]
    leaves every file, hence the persisted record, as it was.  For a score of
    at least 70, on a session whose completed set is a list and whose score is
    an integer, it records the lab as completed, adds the score, clears the
    active lab and saves the record. *)
Theorem verify_threshold (sd : string) (session : StudentSession)
    (now : string) (run : run_outcome) (σ : fs) (l : string)
    (lab : LabDefinition) (results : json) :
  active_lab session = inr (JStr l) ->
  l ≠ "" ->
  load sd l σ = (inr (Some lab), σ) ->
  verify sd lab now run σ = (inr results, σ) ->
  (forall lab' now' run' σ0, (verify sd lab' now' run' σ0).2 = σ0)
  /\ (forall z stderr,
        is_Some (σ !! script_path sd lab) ->
        exists results',
          verify sd lab now (Exited 0 (Decodes (JObj [("score", JInt z)])) stderr) σ
          = (inr results', σ)
          /\ getitem results' "score" = inr (JInt z))
  /\ (forall sc z,
        getitem results "score" = inr sc -> as_int sc = Some z -> z < 70 ->
        (cmd_verify sd session now run σ).2 = σ)
  /\ (forall z,
        is_verification_result results z -> z < 70 ->
        cmd_verify sd session now run σ
        = (inr (session, NotQuiteThere results), σ))
  /\ (forall z cl total sc,
        is_verification_result results z -> 70 <= z ->
        completed session = inr (JList cl) ->
        total_score session = inr total ->
        as_int total = Some sc ->
        persisted σ session ≠ Some Dir ->
        exists s' cl',
          cmd_verify sd session now run σ
          = (inr (s', LabCompleted results),
             <[session.(session_file) := File (Decodes s'.(data))]> σ)
          /\ completed s' = inr (JList cl')
          /\ JStr l ∈ cl'
          /\ total_score s' = inr (JInt (sc + z))
          /\ active_lab s' = inr JNull
          /\ attempts_map s' = attempts_map session).
Proof.
  intros Hcur Hl Hload Hver.
  split; [intros; apply verify_frame|]. split; [|split; [|split]].
  - intros z stderr Hs. rewrite verify_with_script by done.
    eexists. split; reflexivity.
  - intros sc z Hsc Hz Hlt. by eapply cmd_verify_below.
  - intros z Hres Hlt.
    rewrite (cmd_verify_result sd session now run σ l lab results z) by done.
    assert (E : (70 <=? z) = false) by lia. by rewrite E.
  - intros z cl total sc Hres Hge Hc Ht Hi Hd.
    rewrite (cmd_verify_result sd session now run σ l lab results z) by done.
    assert (E : (70 <=? z) = true) by lia. rewrite E.
    destruct (complete_lab_run session l z σ cl total sc Hc Ht Hi Hd)
      as (s' & Hrun & _ & _ & Hc' & Ht' & Hl' & Ha').
    exists s', (with_lab l cl). rewrite (bind_run _ _ _ _ _ Hrun).
    split; [reflexivity|]. split; [done|]. split; [apply with_lab_elem|].
    done.
Qed.

Lemma verify_threshold_witness :
  exists s' cl',
    cmd_verify install_dir retrying_session t1 passing labs_checked
    = (inr (s', LabCompleted passing_result),
       <[retrying_session.(session_file) := File (Decodes s'.(data))]>
         labs_checked)
    /\ completed s' = inr (JList cl')
    /\ JStr "lab-01-recon" ∈ cl'
    /\ total_score s' = inr (JInt (0 + 85))
    /\ active_lab s' = inr JNull
    /\ attempts_map s' = attempts_map retrying_session.
Proof.
  apply (proj2 (proj2 (proj2 (proj2
           (verify_threshold install_dir retrying_session t1 passing
              labs_checked "lab-01-recon" recon_lab passing_result
              eq_refl ltac:(discriminate) eq_refl eq_refl))))
           85 [] (JInt 0) 0).
  - by repeat eexists.
  - lia.
  - reflexivity.
  - reflexivity.
  - reflexivity.
  - discriminate.
Defined.

(** C10.  Constructing a session writes nothing.  For a student without a
    record the session holds the zero state in memory only, reading its
    progress succeeds, and the record is first written by [start_lab] or
    [complete_lab]; each of these, when it returns, has saved the whole
    record it returns. *)
Theorem first_write_on_mutation (sid now : string) (σ : fs) :
  (StudentSession_init sid now σ).2 = σ
  /\ (σ !! path_join STATE_DIR (sid +:+ ".json") = None ->
      exists s,
        StudentSession_init sid now σ = (inr s, σ)
        /\ s.(data) = zero_state sid now
        /\ persisted σ s = None
        /\ (exists progress, get_progress s = inr progress)
        /\ (forall lab t, exists s',
              start_lab s lab t σ
              = (inr s', <[s.(session_file) := File (Decodes s'.(data))]> σ))
        /\ (forall lab v, exists s',
              complete_lab s lab v σ
              = (inr s', <[s.(session_file) := File (Decodes s'.(data))]> σ)))
  /\ (forall s lab t s' σ',
        start_lab s lab t σ = (inr s', σ') ->
        σ' = <[s.(session_file) := File (Decodes s'.(data))]> σ)
  /\ (forall s lab v s' σ',
        complete_lab s lab v σ = (inr s', σ') ->
        σ' = <[s.(session_file) := File (Decodes s'.(data))]> σ).
Proof.
  split; [|split; [|split]].
  - unfold StudentSession_init, bind. rewrite load_or_create_unfold.
    unfold json_load.
    destruct (σ !! _) as [[|d]|]; [done| |done]. by destruct (json_loads d).
  - intros Hnone.
    set (s0 := {| student_id := sid;
                  session_file := path_join STATE_DIR (sid +:+ ".json");
                  data := zero_state sid now |}).
    assert (Hd : persisted σ s0 ≠ Some Dir).
    { unfold persisted. cbn [session_file s0]. by rewrite Hnone. }
    exists s0. split.
    { unfold StudentSession_init, bind. rewrite load_or_create_unfold.
      by rewrite Hnone. }
    split; [done|]. split; [done|]. split; [by eexists|]. split.
    + intros lab t.
      destruct (start_lab_run s0 lab t σ [] 0 eq_refl eq_refl Hd)
        as (s' & Hrun & _).
      by exists s'.
    + intros lab v.
      destruct (complete_lab_run s0 lab v σ [] (JInt 0) 0 eq_refl eq_refl
                  eq_refl Hd) as (s' & Hrun & _).
      by exists s'.
  - intros s lab t s' σ'. apply start_lab_saves.
  - intros s lab v s' σ'. apply complete_lab_saves.
Qed.

Lemma first_write_on_mutation_witness :
  (∅ : fs) !! path_join STATE_DIR ("student-01" +:+ ".json") = None
  /\ exists s,
       StudentSession_init "student-01" t0 ∅ = (inr s, ∅)
       /\ s.(data) = zero_state "student-01" t0
       /\ persisted ∅ s = None
       /\ (exists progress, get_progress s = inr progress)
       /\ (forall lab t, exists s',
             start_lab s lab t ∅
             = (inr s', <[s.(session_file) := File (Decodes s'.(data))]> ∅))
       /\ (forall lab v, exists s',
             complete_lab s lab v ∅
             = (inr s', <[s.(session_file) := File (Decodes s'.(data))]> ∅)).
Proof.
  split; [reflexivity|].
  exact (proj1 (proj2 (first_write_on_mutation "student-01" t0 ∅)) eq_refl).
Defined.

(** * Further properties of the controller *)

(** ** Histories *)

Lemma starts_nonneg (lab : string) (ops : list op) : 0 <= starts lab ops.
Proof.
  induction ops as [|[l t|l v] ops IH]; simpl; [lia| |done].
  destruct (String.eqb lab l); lia.
Qed.

Lemma active_after_cons (cur : json) (o : op) (ops : list op) :
  active_after cur (o :: ops)
  = active_after (match o with StartLab lab _ => JStr lab | _ => JNull end) ops.
Proof.
  unfold active_after. rewrite last_cons. by destruct (last ops), o.
Qed.

Lemma with_lab_NoDup (lab : string) (cl : list json) :
  NoDup cl -> NoDup (with_lab lab cl).
Proof.
  intros H. unfold with_lab. destruct (existsb (eq_str lab) cl) eqn:E; [done|].
  apply NoDup_app. split; [done|]. split; [|apply NoDup_singleton].
  intros x Hx Hx'. apply list_elem_of_singleton in Hx'. subst x.
  apply existsb_eq_str in Hx. congruence.
Qed.

Lemma with_lab_elem_iff (lab : string) (cl : list json) (x : json) :
  x ∈ with_lab lab cl <-> x ∈ cl \/ x = JStr lab.
Proof.
  split; [apply with_lab_inv|].
  intros [H| ->]; [|apply with_lab_elem].
  unfold with_lab. destruct (existsb _ cl); [done|].
  apply elem_of_app. by left.
Qed.

Lemma run_ops_replay (ops : list op) :
  forall (s : StudentSession) (σ : fs) (cl : list json) (am : dict) (sc : Z)
         (cur : json),
  completed s = inr (JList cl) ->
  attempts_map s = inr (JObj am) ->
  total_score s = inr (JInt sc) ->
  active_lab s = inr cur ->
  (forall lab c, dict_lookup lab am = Some c -> exists n, c = JInt n) ->
  persisted σ s ≠ Some Dir ->
  exists s' σ' cl' am',
    run_ops s ops σ = (inr s', σ')
    /\ s'.(student_id) = s.(student_id)
    /\ s'.(session_file) = s.(session_file)
    /\ (ops = [] /\ σ' = σ
        \/ persisted σ' s' = Some (File (Decodes s'.(data))))
    /\ (forall p, p ≠ s.(session_file) -> σ' !! p = σ !! p)
    /\ completed s' = inr (JList cl')
    /\ attempts_map s' = inr (JObj am')
    /\ total_score s' = inr (JInt (sc + score_sum ops))
    /\ active_lab s' = inr (active_after cur ops)
    /\ (forall lab c, dict_lookup lab am' = Some c -> exists n, c = JInt n)
    /\ (forall lab,
          dict_lookup lab am'
          = if starts lab ops =? 0 then dict_lookup lab am
            else Some (JInt (count_in am lab + starts lab ops)))
    /\ (forall x, x ∈ cl' <->
                  x ∈ cl \/ exists lab, x = JStr lab /\ Exists (completes lab) ops)
    /\ (NoDup cl -> NoDup cl').
Proof.
  induction ops as [|o ops IH]; intros s σ cl am sc cur Hc Ha Ht Hcur Hint Hd.
  - exists s, σ, cl, am. simpl. rewrite Z.add_0_r.
    repeat split; try done; try (by left); try tauto.
    + intros [H|(lab & _ & H)]; [done|]. by apply Exists_nil in H.
  - destruct o as [lab now|lab v].
    + assert (Hn : as_int (default (JInt 0) (dict_lookup lab am))
                   = Some (count_in am lab)).
      { unfold count_in. destruct (dict_lookup lab am) as [c|] eqn:E; [|done].
        by destruct (Hint _ _ E) as (n & ->). }
      destruct (start_lab_run s lab now σ am _ Ha Hn Hd)
        as (s1 & Hrun & Hfile & Hsid & Hcur1 & Ha1 & Hc1 & Ht1).
      rewrite Hc in Hc1. rewrite Ht in Ht1.
      edestruct (IH s1 (<[session_file s := File (Decodes (data s1))]> σ) cl _ sc
                   (JStr lab) Hc1 Ha1 Ht1 Hcur1)
        as (s' & σ' & cl' & am' & Hrun' & Hsid' & Hfile' & Hper & Hfr & Hc' & Ha'
            & Ht' & Hcur' & Hint' & Hat & Hmem & Hnd).
      { intros l c. rewrite dict_lookup_set. case_decide; [|apply Hint].
        intros [= <-]. by eexists. }
      { unfold persisted. rewrite Hfile, lookup_insert_eq. done. }
      exists s', σ', cl', am'. simpl. rewrite (bind_run _ _ _ _ _ Hrun).
      split; [done|]. split; [congruence|]. split; [congruence|].
      split.
      { right. destruct Hper as [[-> ->]|Hper]; [|done].
        simpl in Hrun'. injection Hrun' as <-.
        unfold persisted. rewrite Hfile. apply lookup_insert_eq. }
      split.
      { intros p Hp. rewrite Hfr by congruence. by apply lookup_insert_ne. }
      split; [done|]. split; [done|]. split; [done|].
      split; [by rewrite active_after_cons|]. split; [done|]. split; [|split].
      * intros l. rewrite Hat. rewrite dict_lookup_set.
        pose proof (starts_nonneg l ops) as Hge.
        destruct (String.eqb l lab) eqn:E.
        -- apply String.eqb_eq in E. subst l.
           rewrite decide_True by done.
           replace (1 + starts lab ops =? 0) with false by lia.
           destruct (starts lab ops =? 0) eqn:E0.
           ++ f_equal. f_equal. lia.
           ++ unfold count_in at 1. rewrite dict_lookup_set_eq.
              f_equal. f_equal. lia.
        -- apply String.eqb_neq in E. rewrite decide_False by congruence.
           rewrite Z.add_0_l. unfold count_in.
           by rewrite dict_lookup_set_ne by congruence.
      * intros x. rewrite Hmem. split.
        -- intros [H|(l & -> & H)]; [by left|]. right. exists l.
           split; [done|]. by apply Exists_cons_tl.
        -- intros [H|(l & -> & H)]; [by left|]. right. exists l.
           split; [done|]. apply Exists_cons in H as [[v Hv]|H]; [done|done].
      * done.
    + destruct (complete_lab_run s lab v σ cl (JInt sc) sc Hc Ht eq_refl Hd)
        as (s1 & Hrun & Hfile & Hsid & Hc1 & Ht1 & Hcur1 & Ha1).
      rewrite Ha in Ha1.
      edestruct (IH s1 (<[session_file s := File (Decodes (data s1))]> σ) _ am _
                   JNull Hc1 Ha1 Ht1 Hcur1 Hint)
        as (s' & σ' & cl' & am' & Hrun' & Hsid' & Hfile' & Hper & Hfr & Hc' & Ha'
            & Ht' & Hcur' & Hint' & Hat & Hmem & Hnd).
      { unfold persisted. rewrite Hfile, lookup_insert_eq. done. }
      exists s', σ', cl', am'. simpl. rewrite (bind_run _ _ _ _ _ Hrun).
      split; [done|]. split; [congruence|]. split; [congruence|].
      split.
      { right. destruct Hper as [[-> ->]|Hper]; [|done].
        simpl in Hrun'. injection Hrun' as <-.
        unfold persisted. rewrite Hfile. apply lookup_insert_eq. }
      split.
      { intros p Hp. rewrite Hfr by congruence. by apply lookup_insert_ne. }
      split; [done|]. split; [done|].
      split; [by rewrite Ht', Z.add_assoc|].
      split; [by rewrite active_after_cons|]. split; [done|]. split; [done|].
      split.
      * intros x. rewrite Hmem, with_lab_elem_iff. split.
        -- intros [[H| ->]|(l & -> & H)]; [by left| |].
           ++ right. exists lab. split; [done|]. apply Exists_cons_hd. by exists v.
           ++ right. exists l. split; [done|]. by apply Exists_cons_tl.
        -- intros [H|(l & -> & H)]; [by left; left|].
           apply Exists_cons in H as [[v' [= -> ->]]|H]; [by left; right|].
           right. by exists l.
      * intros H. apply Hnd. by apply with_lab_NoDup.
Qed.

(** ** The shape of what the operations return *)

Ltac run_lifts_any :=
  repeat (first [rewrite bind_assoc | rewrite bind_ret | rewrite bind_lift];
          try match goal with
              | |- context [match ?r with inl _ => _ | inr _ => _ end] =>
                  lazymatch r with
                  | inr _ => fail
                  | inl _ => fail
                  | _ => destruct r; [by intros [= <- <-]; split|]
                  end
              end;
          cbn beta iota).

Ltac run_save_any σ :=
  cbv zeta; unfold bind, ret;
  match goal with
  | |- context [save ?x σ] =>
      let E := fresh "E" in
      destruct (save x σ) as [[?|[]] ?] eqn:E; apply save_run in E;
      intros [= <- <-]; (split; [done|]); intros ? [= <-]; by subst
  end.

Lemma start_lab_shape (s : StudentSession) (lab t : string) (σ σ' : fs)
    (r : res StudentSession) :
  start_lab s lab t σ = (r, σ') ->
  (forall e, r = inl e -> σ' = σ)
  /\ (forall s', r = inr s' ->
        s'.(student_id) = s.(student_id)
        /\ s'.(session_file) = s.(session_file)
        /\ σ' = <[s.(session_file) := File (Decodes s'.(data))]> σ).
Proof.
  unfold start_lab. run_lifts_any. run_save_any σ.
Qed.

Lemma complete_lab_shape (s : StudentSession) (lab : string) (v : Z)
    (σ σ' : fs) (r : res StudentSession) :
  complete_lab s lab v σ = (r, σ') ->
  (forall e, r = inl e -> σ' = σ)
  /\ (forall s', r = inr s' ->
        s'.(student_id) = s.(student_id)
        /\ s'.(session_file) = s.(session_file)
        /\ σ' = <[s.(session_file) := File (Decodes s'.(data))]> σ).
Proof.
  unfold complete_lab. run_lifts_any.
  match goal with
  | |- context [if ?b then _ else _] => destruct b
  end; run_lifts_any; run_save_any σ.
Qed.

Lemma run_op_shape (s : StudentSession) (o : op) (σ σ' : fs)
    (r : res StudentSession) :
  run_op s o σ = (r, σ') ->
  (forall e, r = inl e -> σ' = σ)
  /\ (forall s', r = inr s' ->
        s'.(student_id) = s.(student_id)
        /\ s'.(session_file) = s.(session_file)
        /\ σ' = <[s.(session_file) := File (Decodes s'.(data))]> σ).
Proof.
  destruct o; [apply start_lab_shape|apply complete_lab_shape].
Qed.

Lemma init_new (sid now : string) (σ : fs) :
  σ !! record_path sid = None ->
  StudentSession_init sid now σ
  = (inr {| student_id := sid; session_file := record_path sid;
            data := zero_state sid now |}, σ).
Proof.
  intros H. unfold StudentSession_init, bind. fold (record_path sid).
  by rewrite load_or_create_unfold, H.
Qed.

Lemma init_saved (sid now : string) (σ : fs) (d : json) :
  σ !! record_path sid = Some (File (Decodes d)) ->
  StudentSession_init sid now σ
  = (inr {| student_id := sid; session_file := record_path sid; data := d |},
     σ).
Proof.
  intros H. unfold StudentSession_init, bind. fold (record_path sid).
  rewrite load_or_create_unfold, H. unfold json_load. by rewrite H.
Qed.

(** The replay, from a first access. *)
Lemma history_replay (sid now : string) (σ : fs) (ops : list op) :
  σ !! record_path sid = None ->
  exists s0 s σ' cl am,
    StudentSession_init sid now σ = (inr s0, σ)
    /\ run_ops s0 ops σ = (inr s, σ')
    /\ completed s = inr (JList cl)
    /\ attempts_map s = inr (JObj am)
    /\ total_score s = inr (JInt (score_sum ops))
    /\ active_lab s = inr (active_after JNull ops)
    /\ (forall lab,
          dict_lookup lab am
          = if starts lab ops =? 0 then None else Some (JInt (starts lab ops)))
    /\ (forall x, x ∈ cl <->
                  exists lab, x = JStr lab /\ Exists (completes lab) ops)
    /\ NoDup cl
    /\ (ops = [] /\ σ' = σ
        \/ σ' !! record_path sid = Some (File (Decodes s.(data))))
    /\ (forall p, p ≠ record_path sid -> σ' !! p = σ !! p).
Proof.
  intros Hnone.
  set (s0 := {| student_id := sid; session_file := record_path sid;
                data := zero_state sid now |}).
  destruct (run_ops_replay ops s0 σ [] [] 0 JNull)
    as (s & σ' & cl & am & Hrun & _ & Hfile & Hper & Hfr & Hc & Ha & Ht & Hcur
        & _ & Hat & Hmem & Hnd); try done.
  { unfold persisted. cbn [session_file s0]. by rewrite Hnone. }
  exists s0, s, σ', cl, am. split; [by apply init_new|].
  split; [done|]. split; [done|]. split; [done|]. split; [done|].
  split; [done|]. split; [|split; [|split; [|split]]].
  - intros lab. rewrite Hat. destruct (starts lab ops =? 0); [done|].
    by rewrite Z.add_0_l.
  - intros x. rewrite Hmem. split; [|by right].
    intros [H|H]; [by apply elem_of_nil in H|done].
  - apply Hnd. apply NoDup_nil_2.
  - destruct Hper as [?|Hper]; [by left|]. right.
    unfold persisted in Hper. by rewrite Hfile in Hper.
  - done.
Qed.

Lemma get_progress_run (s : StudentSession) (cur a t : json) (cl : list json) :
  active_lab s = inr cur ->
  completed s = inr (JList cl) ->
  total_score s = inr t ->
  attempts_map s = inr a ->
  get_progress s
  = inr (JObj [("student_id", JStr s.(student_id));
               ("current_lab", cur);
               ("completed_labs", JInt (Z.of_nat (length cl)));
               ("total_score", t);
               ("attempts", a)]).
Proof.
  unfold active_lab, completed, total_score, attempts_map, get_progress.
  by intros -> -> -> ->.
Qed.

(** ** The student commands, case by case *)

Lemma get_starter_code_run (sd : string) (lab : LabDefinition) (σ : fs) :
  σ !! starter_path sd lab.(lab_id) ≠ Some Dir ->
  exists starter, get_starter_code sd lab σ = (inr starter, σ).
Proof.
  intros H. unfold get_starter_code, bind, path_exists, read_text, ret.
  fold (starter_path sd (lab_id lab)).
  destruct (σ !! starter_path sd (lab_id lab)) as [[|t]|] eqn:E; [done| |].
  - rewrite bool_decide_eq_true_2 by (by eexists). rewrite E. by eexists.
  - rewrite bool_decide_eq_false_2 by (by intros [? ?]). by eexists.
Qed.

(** [cmd_start] on a lab whose definition loads, whose objectives can be
    walked and whose starter code can be read does what [start_lab] does. *)
Lemma cmd_start_run (sd : string) (s : StudentSession) (lab now : string)
    (σ : fs) (cfg : dict) (objs : list json) :
  σ !! lab_file sd lab = Some (File (Decodes (JObj cfg))) ->
  iterate (default (JList []) (dict_lookup "objectives" cfg)) = inr objs ->
  σ !! starter_path sd lab ≠ Some Dir ->
  cmd_start sd s lab now σ
  = (session' <- start_lab s lab now;; ret (session', LabStarted)) σ.
Proof.
  intros Hfile Hobj Hst. unfold cmd_start.
  rewrite (bind_run _ _ _ _ _ (load_object sd lab σ cfg Hfile)).
  cbn [objectives definition_of]. rewrite bind_lift, Hobj. cbn beta iota.
  destruct (get_starter_code_run sd (definition_of lab cfg) σ Hst) as [st Hg].
  by rewrite (bind_run _ _ _ _ _ Hg).
Qed.

(** Whatever [cmd_start] returns, it changed the store only by a
    [start_lab] that returned. *)
Lemma cmd_start_cases (sd : string) (s : StudentSession) (lab now : string)
    (σ σ' : fs) (r : res (StudentSession * start_output)) :
  cmd_start sd s lab now σ = (r, σ') ->
  σ' = σ /\ (forall s', r ≠ inr (s', LabStarted))
  \/ exists s', r = inr (s', LabStarted)
                /\ start_lab s lab now σ = (inr s', σ').
Proof.
  unfold cmd_start. unfold bind at 1.
  pose proof (load_frame sd lab σ) as Hlf.
  destruct (load sd lab σ) as [[e|[d|]] σ1]; simpl in Hlf; subst σ1;
    [by intros [= <- <-]; left| |by intros [= <- <-]; left].
  rewrite bind_lift. destruct (iterate _); [by intros [= <- <-]; left|].
  unfold bind at 1.
  pose proof (get_starter_code_frame sd d σ) as Hsf.
  destruct (get_starter_code sd d σ) as [[e|starter] σ1]; simpl in Hsf; subst σ1;
    [by intros [= <- <-]; left|].
  unfold bind, ret.
  destruct (start_lab s lab now σ) as [[e|s1] σ1] eqn:Hst.
  - intros [= <- <-]. left. split; [|done].
    by apply (proj1 (start_lab_shape _ _ _ _ _ _ Hst) e).
  - intros [= <- <-]. right. by exists s1.
Qed.

Lemma cmd_hint_frame (sd : string) (s : StudentSession) (σ : fs) :
  (cmd_hint sd s σ).2 = σ.
Proof.
  unfold cmd_hint. rewrite bind_lift.
  destruct (getitem (data s) "current_lab") as [e|cur]; [done|].
  destruct (truthy cur); cbn [negb]; [|done].
  unfold bind at 1.
  assert (Hlf : (load_value sd cur σ).2 = σ).
  { destruct cur; try done. apply load_frame. }
  destruct (load_value sd cur σ) as [[e|[lab|]] σ1]; simpl in Hlf; subst σ1;
    [done| |done].
  destruct (truthy (hints lab)); cbn [negb]; [|done].
  repeat (rewrite bind_lift;
          match goal with
          | |- context [match ?r with inl _ => _ | inr _ => _ end] =>
              destruct r; [done|]
          end).
  done.
Qed.

(** [cmd_hint] in a session whose active lab has a non-empty list of hints
    and an integer attempt count. *)
Lemma cmd_hint_index (sd : string) (s : StudentSession) (σ : fs)
    (lab : string) (cfg : dict) (hs : list json) (am : dict) (n : Z) :
  active_lab s = inr (JStr lab) ->
  lab ≠ "" ->
  σ !! lab_file sd lab = Some (File (Decodes (JObj cfg))) ->
  dict_lookup "hints" cfg = Some (JList hs) ->
  hs ≠ [] ->
  attempts_map s = inr (JObj am) ->
  default (JInt 1) (dict_lookup lab am) = JInt n ->
  let i := Z.min (n - 1) (Z.of_nat (length hs) - 1) in
  cmd_hint sd s σ
  = match seq_index hs i with
    | Some h => (inr (Hint (i + 1) h), σ)
    | None => (raise IndexError "list index out of range", σ)
    end.
Proof.
  intros Hcur Hlab Hfile Hhints Hne Ham Hn i.
  unfold cmd_hint. unfold active_lab in Hcur. rewrite bind_lift, Hcur.
  rewrite truthy_str by done. cbn [negb load_value].
  rewrite (bind_run _ _ _ _ _ (load_object sd lab σ cfg Hfile)).
  cbn [hints definition_of lab_id]. rewrite Hhints. cbn [default from_option id].
  assert (Ht : truthy (JList hs) = true) by (by destruct hs).
  rewrite Ht. cbn [negb].
  unfold attempts_map in Ham. rewrite bind_lift, Ham.
  rewrite bind_lift. cbn [dict_get]. rewrite Hn.
  rewrite bind_lift. cbn [add_int as_int].
  rewrite bind_lift. cbn [len].
  replace (n + -1) with (n - 1) by lia. fold i.
  rewrite bind_lift. cbn [index]. by destruct (seq_index hs i).
Qed.

Lemma seq_index_from_end {A} (l : list A) (i : Z) :
  - Z.of_nat (length l) <= i < 0 ->
  seq_index l i = l !! Z.to_nat (Z.of_nat (length l) + i).
Proof.
  intros H. unfold seq_index.
  destruct (0 <=? i) eqn:E1; [lia|]. cbn [andb].
  destruct (- Z.of_nat (length l) <=? i) eqn:E2; [|lia].
  destruct (i <? 0) eqn:E3; [done|lia].
Qed.

Lemma seq_index_out {A} (l : list A) (i : Z) :
  i < - Z.of_nat (length l) -> seq_index l i = None.
Proof.
  intros H. unfold seq_index.
  destruct (0 <=? i) eqn:E1; [lia|]. cbn [andb].
  destruct (- Z.of_nat (length l) <=? i) eqn:E2; [lia|]. done.
Qed.

Ltac run_lifts_eqn :=
  repeat (first [rewrite bind_assoc | rewrite bind_ret | rewrite bind_lift];
          try match goal with
              | |- context [match ?r with inl _ => _ | inr _ => _ end] =>
                  lazymatch r with
                  | inr _ => fail
                  | inl _ => fail
                  | _ => let E := fresh "E" in
                         destruct r eqn:E; [discriminate|]
                  end
              end;
          cbn beta iota).

Lemma complete_lab_clears (s : StudentSession) (lab : string) (v : Z)
    (σ σ' : fs) (s' : StudentSession) :
  complete_lab s lab v σ = (inr s', σ') -> active_lab s' = inr JNull.
Proof.
  unfold complete_lab. run_lifts_eqn.
  match goal with
  | |- context [if ?b then _ else _] => destruct b
  end; run_lifts_eqn;
  (cbv zeta; unfold bind, ret;
   match goal with
   | |- context [save ?x σ] => destruct (save x σ) as [[?|[]] ?]
   end; [discriminate|]; intros [= <- <-];
   unfold active_lab, with_data; cbn [data];
   eapply getitem_setitem_eq; eassumption).
Qed.

(** Whatever [cmd_verify] returns, it changed the store only by a
    [complete_lab] of the active lab that returned. *)
Lemma cmd_verify_shape (sd : string) (s : StudentSession) (now : string)
    (run : run_outcome) (σ σ' : fs) (r : res (StudentSession * verify_output)) :
  cmd_verify sd s now run σ = (r, σ') ->
  σ' = σ /\ (forall s' results, r ≠ inr (s', LabCompleted results))
  \/ exists l z s' results,
       r = inr (s', LabCompleted results)
       /\ active_lab s = inr (JStr l)
       /\ 70 <= z
       /\ complete_lab s l z σ = (inr s', σ').
Proof.
  unfold cmd_verify, active_lab. rewrite bind_lift.
  destruct (getitem (data s) "current_lab") as [e|cur];
    [by intros [= <- <-]; left|].
  destruct (truthy cur); cbn [negb]; [|by intros [= <- <-]; left].
  destruct cur as [| | |l| |]; try (by intros [= <- <-]; left).
  cbn [load_value]. unfold bind at 1.
  pose proof (load_frame sd l σ) as Hlf.
  destruct (load sd l σ) as [[e|[lab|]] σ1] eqn:Hload;
    simpl in Hlf; subst σ1; try (by intros [= <- <-]; left).
  apply load_lab_id in Hload. subst l.
  unfold bind at 1.
  pose proof (verify_frame sd lab now run σ) as Hvf.
  destruct (verify sd lab now run σ) as [[e|res] σ1];
    simpl in Hvf; subst σ1; [by intros [= <- <-]; left|].
  do 6 (rewrite bind_lift;
        match goal with
        | |- context [match ?r with inl _ => _ | inr _ => _ end] =>
            destruct r; [by intros [= <- <-]; left|]
        end).
  match goal with
  | |- context [if truthy ?v then _ else _] =>
      assert (Hblock : exists r,
        (if truthy v
         then feedback <- lift (inr v);; lift (iterate feedback);;; ret ()
         else ret ()) σ = (r, σ))
  end.
  { destruct (truthy _); [|by eexists]. rewrite bind_lift.
    rewrite bind_lift. destruct (iterate _); by eexists. }
  destruct Hblock as [rb Hblock]. unfold bind at 1. rewrite Hblock.
  destruct rb as [e|[]]; [by intros [= <- <-]; left|].
  rewrite bind_lift.
  match goal with
  | |- context [as_int ?v] =>
      destruct (as_int v) as [z|]; [|by intros [= <- <-]; left]
  end.
  destruct (70 <=? z) eqn:E; [|by intros [= <- <-]; left].
  unfold bind, ret.
  destruct (complete_lab s (lab_id lab) z σ) as [[e|s1] σ1] eqn:Hcl.
  - intros [= <- <-]. left. split; [|done].
    by apply (proj1 (complete_lab_shape _ _ _ _ _ _ Hcl) e).
  - intros [= <- <-]. right. exists (lab_id lab), z, s1, res.
    split; [done|]. split; [done|]. split; [lia|done].
Qed.

(** ** The verifier and its payload *)

Lemma dict_lookup_None (k : string) (d : dict) :
  k ∉ d.*1 -> dict_lookup k d = None.
Proof.
  induction d as [|[k' v] d IH]; [done|]. simpl. intros H.
  apply not_elem_of_cons in H as [Hne H].
  destruct (String.eqb k k') eqn:E; [|by apply IH].
  apply String.eqb_eq in E. congruence.
Qed.

(** Merging an object with distinct keys: its entries win, the others
    stay. *)
Lemma merge_lookup (kv d : dict) (k : string) :
  NoDup kv.*1 ->
  dict_lookup k (foldl (fun acc kv => dict_set kv.1 kv.2 acc) d kv)
  = match dict_lookup k kv with
    | Some v => Some v
    | None => dict_lookup k d
    end.
Proof.
  revert d. induction kv as [|[k0 v0] kv IH]; intros d Hnd; [done|].
  apply NoDup_cons in Hnd as [Hk0 Hnd]. simpl.
  rewrite IH by done. rewrite dict_lookup_set.
  destruct (String.eqb k k0) eqn:E.
  - apply String.eqb_eq in E. subst k0.
    rewrite dict_lookup_None by done. by rewrite decide_True.
  - apply String.eqb_neq in E. rewrite decide_False by congruence. done.
Qed.

(** ** The instructor commands *)

Lemma dict_keys_NoDup (d : dict) : NoDup (dict_keys d).
Proof.
  induction d as [|[k v] d IH]; simpl; [apply NoDup_nil_2|].
  apply NoDup_cons. split.
  - rewrite list_elem_of_filter. by intros [? _].
  - by apply NoDup_filter.
Qed.

Lemma dict_keys_elem (d : dict) (k : string) :
  k ∈ dict_keys d <-> is_Some (dict_lookup k d).
Proof.
  induction d as [|[k' v] d IH]; simpl.
  - rewrite elem_of_nil. split; [done|]. by intros [? ?].
  - rewrite elem_of_cons, list_elem_of_filter, IH.
    destruct (String.eqb k k') eqn:E.
    + apply String.eqb_eq in E. subst. split; [by eexists|by left].
    + apply String.eqb_neq in E. split; [by intros [?|[_ ?]]|by right].
Qed.

Lemma for_each_fmap {A B} (f : A -> res B) (g : A -> B) (l : list A) :
  (forall x, f x = inr (g x)) -> for_each f l = inr (g <$> l).
Proof.
  intros H. induction l as [|x l IH]; [done|].
  simpl. by rewrite H, IH.
Qed.

Lemma init_frame (sid now : string) (σ : fs) :
  (StudentSession_init sid now σ).2 = σ.
Proof.
  unfold StudentSession_init, bind. rewrite load_or_create_unfold.
  unfold json_load.
  destruct (σ !! _) as [[|d]|]; [done| |done]. by destruct (json_loads d).
Qed.

Lemma cmd_grade_frame (sid now : string) (σ : fs) :
  (cmd_grade sid now σ).2 = σ.
Proof.
  unfold cmd_grade. unfold bind at 1.
  pose proof (init_frame sid now σ) as Hf.
  destruct (StudentSession_init sid now σ) as [[e|s] σ1]; simpl in Hf; subst σ1;
    [done|].
  repeat (rewrite bind_lift;
          match goal with
          | |- context [match ?r with inl _ => _ | inr _ => _ end] =>
              destruct r; [done|]
          end).
  done.
Qed.

Lemma cmd_grade_run (sid now : string) (σ : fs) (s : StudentSession)
    (cl : list json) (am : dict) (t cur : json) :
  StudentSession_init sid now σ = (inr s, σ) ->
  completed s = inr (JList cl) ->
  attempts_map s = inr (JObj am) ->
  total_score s = inr t ->
  active_lab s = inr cur ->
  cmd_grade sid now σ
  = (inr {| report_score := t;
            report_completed := JInt (Z.of_nat (length cl));
            report_rows := row_of cl am <$> dict_keys am |}, σ).
Proof.
  intros Hinit Hc Ha Ht Hcur. unfold cmd_grade.
  rewrite (bind_run _ _ _ _ _ Hinit).
  rewrite bind_lift, (get_progress_run s cur (JObj am) t cl) by done.
  cbn beta iota. cbn [getitem dict_lookup String.eqb Ascii.eqb Bool.eqb].
  do 3 (rewrite bind_lift; cbn beta iota). cbn [items].
  do 2 (rewrite bind_lift; cbn beta iota).
  rewrite (for_each_fmap _ (fun entry : string * json =>
             {| row_completed := existsb (eq_str entry.1) cl;
                row_lab := entry.1; row_attempts := entry.2 |})).
  - cbn beta iota. unfold ret. rewrite <- list_fmap_compose. done.
  - intros [k v]. unfold completed in Hc. rewrite Hc. done.
Qed.

Lemma chat_unfold (post : string -> json -> http_outcome)
    (base model message : string) (system : option string) :
  chat post base model message system
  = try_except
      (response <-? response_json
                      (post (base +:+ "/api/chat")
                         (chat_request model message system));
       reply <-? getitem response "message";
       getitem reply "content")
      (fun e => inr (chat_error model e)).
Proof.
  unfold chat, chat_request. destruct system as [prompt|]; [|done].
  by destruct prompt.
Qed.

Lemma list_models_total (get : string -> http_outcome) (base : string) :
  exists models, list_models get base = inr models.
Proof.
  unfold list_models.
  destruct (_ <-? response_json (get (base +:+ "/api/tags")); _); by eexists.
Qed.

Lemma for_each_fails {A B} (f : A -> res B) (l : list A) (x : A) :
  x ∈ l -> (forall y, f x ≠ inr y) -> exists e, for_each f l = inl e.
Proof.
  intros Hx Hf. induction l as [|a l IH]; [by apply elem_of_nil in Hx|].
  apply elem_of_cons in Hx as [<-|Hx]; simpl.
  - destruct (f x) as [e|y] eqn:E; [by eexists|]. by destruct (Hf y).
  - destruct (f a) as [e|y]; [by eexists|]. simpl.
    destruct (IH Hx) as [e ->]. by eexists.
Qed.

Lemma for_each_Forall2 {A B} (f : A -> res B) (l : list A) (l' : list B) :
  Forall2 (fun x y => f x = inr y) l l' -> for_each f l = inr l'.
Proof.
  induction 1 as [|x y l l' Hxy _ IH]; [done|]. simpl. by rewrite Hxy, IH.
Qed.

(** ** Properties beyond the claims *)

(** X1.  After any sequence of [start_lab] and [complete_lab] calls from a
    student's first access, every call has succeeded and the attempt count
    of a lab is the number of times it was started; a lab never started has
    no entry. *)
Theorem attempts_count_starts (sid now : string) (σ : fs) (ops : list op) :
  σ !! record_path sid = None ->
  exists s0 s σ',
    StudentSession_init sid now σ = (inr s0, σ)
    /\ run_ops s0 ops σ = (inr s, σ')
    /\ forall lab,
         attempt_count s lab
         = if starts lab ops =? 0 then None else Some (JInt (starts lab ops)).
Proof.
  intros Hnone.
  destruct (history_replay sid now σ ops Hnone)
    as (s0 & s & σ' & cl & am & Hinit & Hrun & _ & Ha & _ & _ & Hat & _).
  exists s0, s, σ'. split; [done|]. split; [done|].
  intros lab. unfold attempt_count. rewrite Ha. apply Hat.
Qed.

Lemma attempts_count_starts_witness :
  exists s0 s σ',
    StudentSession_init "student-01" t0 ∅ = (inr s0, ∅)
    /\ run_ops s0 scenario ∅ = (inr s, σ')
    /\ forall lab,
         attempt_count s lab
         = if starts lab scenario =? 0 then None
           else Some (JInt (starts lab scenario)).
Proof.
  apply (attempts_count_starts "student-01" t0 ∅ scenario). reflexivity.
Defined.

(** X2.  After any such sequence the cumulative score is the sum of the
    scores of all the completions, repeated ones included, and the active lab
    is the lab of the last call when that was a start and none when it was a
    completion. *)
Theorem score_is_sum_of_completions (sid now : string) (σ : fs) (ops : list op) :
  σ !! record_path sid = None ->
  exists s0 s σ',
    StudentSession_init sid now σ = (inr s0, σ)
    /\ run_ops s0 ops σ = (inr s, σ')
    /\ total_score s = inr (JInt (score_sum ops))
    /\ active_lab s = inr (active_after JNull ops).
Proof.
  intros Hnone.
  destruct (history_replay sid now σ ops Hnone)
    as (s0 & s & σ' & cl & am & Hinit & Hrun & _ & _ & Ht & Hcur & _).
  by exists s0, s, σ'.
Qed.

Lemma score_is_sum_of_completions_witness :
  exists s0 s σ',
    StudentSession_init "student-01" t0 ∅ = (inr s0, ∅)
    /\ run_ops s0 scenario ∅ = (inr s, σ')
    /\ total_score s = inr (JInt (85 + (40 + 0)))
    /\ active_lab s = inr JNull.
Proof.
  apply (score_is_sum_of_completions "student-01" t0 ∅ scenario). reflexivity.
Defined.

(** X3.  After any such sequence the completed set holds each lab that was
    completed exactly once, however often it was completed, and nothing
    else; [get_progress] succeeds and reports the number of these labs. *)
Theorem completed_labs_distinct (sid now : string) (σ : fs) (ops : list op) :
  σ !! record_path sid = None ->
  exists s0 s σ' cl progress,
    StudentSession_init sid now σ = (inr s0, σ)
    /\ run_ops s0 ops σ = (inr s, σ')
    /\ completed s = inr (JList cl)
    /\ NoDup cl
    /\ (forall x, x ∈ cl <->
                  exists lab, x = JStr lab /\ Exists (completes lab) ops)
    /\ get_progress s = inr progress
    /\ getitem progress "completed_labs" = inr (JInt (Z.of_nat (length cl)))
    /\ getitem progress "total_score" = inr (JInt (score_sum ops)).
Proof.
  intros Hnone.
  destruct (history_replay sid now σ ops Hnone)
    as (s0 & s & σ' & cl & am & Hinit & Hrun & Hc & Ha & Ht & Hcur & _ & Hmem
        & Hnd & _).
  eexists s0, s, σ', cl, _. split; [done|]. split; [done|]. split; [done|].
  split; [done|]. split; [done|].
  split; [exact (get_progress_run s _ _ _ cl Hcur Hc Ht Ha)|].
  split; reflexivity.
Qed.

Lemma completed_labs_distinct_witness :
  exists s0 s σ' cl progress,
    StudentSession_init "student-01" t0 ∅ = (inr s0, ∅)
    /\ run_ops s0 scenario ∅ = (inr s, σ')
    /\ completed s = inr (JList cl)
    /\ NoDup cl
    /\ (forall x, x ∈ cl <->
                  exists lab, x = JStr lab /\ Exists (completes lab) scenario)
    /\ get_progress s = inr progress
    /\ getitem progress "completed_labs" = inr (JInt (Z.of_nat (length cl)))
    /\ getitem progress "total_score" = inr (JInt (score_sum scenario)).
Proof.
  apply (completed_labs_distinct "student-01" t0 ∅ scenario). reflexivity.
Defined.

(** X4.  What [start_lab] or [complete_lab] saves is what the next
    invocation loads: constructing the session of the same student in the
    store the call leaves returns the session the call returned. *)
Theorem saved_session_reloads (s : StudentSession) (o : op) (σ σ' : fs)
    (s' : StudentSession) (now : string) :
  s.(session_file) = record_path s.(student_id) ->
  run_op s o σ = (inr s', σ') ->
  StudentSession_init s.(student_id) now σ' = (inr s', σ').
Proof.
  intros Hfile Hrun.
  destruct (proj2 (run_op_shape s o σ σ' _ Hrun) s' eq_refl)
    as (Hsid & Hfile' & ->).
  rewrite (init_saved _ now _ (data s')).
  - destruct s' as [sid' file' d']. simpl in *. by rewrite Hsid, Hfile', Hfile.
  - rewrite <- Hfile. apply lookup_insert_eq.
Qed.

Lemma saved_session_reloads_witness :
  run_op fresh_session (StartLab "lab-01" t1) ∅
  = (inr started_session, started_store)
  /\ StudentSession_init "student-01" t1 started_store
     = (inr started_session, started_store).
Proof.
  split; [reflexivity|].
  apply (saved_session_reloads fresh_session (StartLab "lab-01" t1) ∅);
    reflexivity.
Defined.

(** X5.  A [start_lab] or [complete_lab] that raises has written nothing,
    and one that returns has written the session file and no other file. *)
Theorem failed_operation_writes_nothing (s : StudentSession) (o : op)
    (σ σ' : fs) (r : res StudentSession) :
  run_op s o σ = (r, σ') ->
  (forall e, r = inl e -> σ' = σ)
  /\ (forall p, p ≠ s.(session_file) -> σ' !! p = σ !! p).
Proof.
  intros Hrun. destruct (run_op_shape s o σ σ' r Hrun) as [Hl Hr].
  split; [done|]. intros p Hp. destruct r as [e|s'].
  - by rewrite (Hl e).
  - destruct (Hr s' eq_refl) as (_ & _ & ->). by apply lookup_insert_ne.
Qed.

Lemma failed_operation_writes_nothing_witness :
  run_op array_session (StartLab "lab-01" t1) labs_plain
  = (inl (Exn TypeError "list indices must be integers or slices, not str"),
     labs_plain)
  /\ (forall e,
        inl (Exn TypeError "list indices must be integers or slices, not str")
        = @inl exn StudentSession e -> labs_plain = labs_plain)
  /\ (forall p, p ≠ array_session.(session_file) ->
        labs_plain !! p = labs_plain !! p).
Proof.
  split; [reflexivity|].
  apply (failed_operation_writes_nothing array_session
           (StartLab "lab-01" t1) labs_plain).
  reflexivity.
Defined.

(** X6.  [cmd_start] for a lab that no file backs starts nothing: the
    session and the store are as before and no attempt is counted.  Whatever
    it does, [cmd_start] changes the store only when it reports the lab
    started, and then as [start_lab] does. *)
Theorem cmd_start_unknown_lab (sd : string) (s : StudentSession)
    (lab now : string) (σ : fs) :
  (σ !! lab_file sd lab = None ->
     cmd_start sd s lab now σ = (inr (s, StartLabNotFound), σ))
  /\ (forall r σ',
        cmd_start sd s lab now σ = (r, σ') ->
        (forall s', r ≠ inr (s', LabStarted)) ->
        σ' = σ)
  /\ (forall s' σ',
        cmd_start sd s lab now σ = (inr (s', LabStarted), σ') ->
        start_lab s lab now σ = (inr s', σ')).
Proof.
  split; [|split].
  - intros H. unfold cmd_start. unfold bind. rewrite load_unfold, H. done.
  - intros r σ' Hrun Hr.
    destruct (cmd_start_cases _ _ _ _ _ _ _ Hrun) as [[-> _]|(s' & -> & _)];
      [done|]. by destruct (Hr s').
  - intros s' σ' Hrun.
    destruct (cmd_start_cases _ _ _ _ _ _ _ Hrun)
      as [[_ H]|(s1 & [= <-] & Hst)]; [by destruct (H s')|done].
Qed.

Lemma cmd_start_unknown_lab_witness :
  (∅ : fs) !! lab_file install_dir "lab-01-recon" = None
  /\ cmd_start install_dir fresh_session "lab-01-recon" t1 ∅
     = (inr (fresh_session, StartLabNotFound), ∅).
Proof.
  split; [reflexivity|].
  exact (proj1 (cmd_start_unknown_lab install_dir fresh_session
                  "lab-01-recon" t1 ∅) eq_refl).
Defined.

(** X7.  Starting a lab reveals the next hint: when a lab with [k >= 1]
    hints has been started [n] times before, [cmd_start] succeeds and the
    [cmd_hint] that follows shows hint number [min (n + 1) k]. *)
Theorem start_then_hint (sd : string) (s : StudentSession) (lab now : string)
    (σ : fs) (cfg : dict) (objs hs : list json) (am : dict) (n : Z) :
  lab ≠ "" ->
  σ !! lab_file sd lab = Some (File (Decodes (JObj cfg))) ->
  iterate (default (JList []) (dict_lookup "objectives" cfg)) = inr objs ->
  dict_lookup "hints" cfg = Some (JList hs) ->
  (1 <= length hs)%nat ->
  σ !! starter_path sd lab ≠ Some Dir ->
  s.(session_file) ≠ lab_file sd lab ->
  persisted σ s ≠ Some Dir ->
  attempts_map s = inr (JObj am) ->
  as_int (default (JInt 0) (dict_lookup lab am)) = Some n ->
  0 <= n ->
  let number := Z.min (n + 1) (Z.of_nat (length hs)) in
  exists s' σ' h,
    cmd_start sd s lab now σ = (inr (s', LabStarted), σ')
    /\ attempt_count s' lab = Some (JInt (n + 1))
    /\ hs !! Z.to_nat (number - 1) = Some h
    /\ cmd_hint sd s' σ' = (inr (Hint number h), σ').
Proof.
  intros Hlab Hfile Hobj Hhints Hk Hst Hne Hd Ham Hn Hn0 number.
  destruct (start_lab_run s lab now σ am n Ham Hn Hd)
    as (s' & Hrun & Hf & _ & Hcur & Ham' & _ & _).
  assert (Hi : 0 <= number - 1 < Z.of_nat (length hs)) by (unfold number; lia).
  destruct (lookup_lt_is_Some_2 hs (Z.to_nat (number - 1))) as [h Hh]; [lia|].
  exists s', (<[session_file s := File (Decodes (data s'))]> σ), h.
  split.
  { rewrite (cmd_start_run sd s lab now σ cfg objs) by done.
    by rewrite (bind_run _ _ _ _ _ Hrun). }
  split.
  { unfold attempt_count. by rewrite Ham', dict_lookup_set_eq. }
  split; [done|].
  rewrite (cmd_hint_index sd s' _ lab cfg hs (dict_set lab (JInt (n + 1)) am)
             (n + 1) Hcur Hlab).
  - cbv zeta. replace (Z.min (n + 1 - 1) (Z.of_nat (length hs) - 1))
      with (number - 1) by (unfold number; lia).
    rewrite seq_index_in_range by done. rewrite Hh.
    by replace (number - 1 + 1) with number by lia.
  - by rewrite lookup_insert_ne.
  - done.
  - by destruct hs.
  - done.
  - by rewrite dict_lookup_set_eq.
Qed.

Lemma start_then_hint_witness :
  exists s' σ' h,
    cmd_start install_dir retrying_session "lab-01-recon" t1 labs_plain
    = (inr (s', LabStarted), σ')
    /\ attempt_count s' "lab-01-recon" = Some (JInt (5 + 1))
    /\ [JStr "Try asking the red agent to scan for open ports";
        JStr "Check common ports: 22, 80, 443"]
         !! Z.to_nat (Z.min (5 + 1) (Z.of_nat 2) - 1) = Some h
    /\ cmd_hint install_dir s' σ' = (inr (Hint (Z.min (5 + 1) (Z.of_nat 2)) h), σ').
Proof.
  apply (start_then_hint install_dir retrying_session "lab-01-recon" t1
           labs_plain
           [("title", JStr "Basic Network Reconnaissance");
            ("difficulty", JStr "beginner");
            ("objectives", JList [JStr "Identify all open ports on the target"]);
            ("hints", JList [JStr "Try asking the red agent to scan for open ports";
                             JStr "Check common ports: 22, 80, 443"])]
           [JStr "Identify all open ports on the target"]
           [JStr "Try asking the red agent to scan for open ports";
            JStr "Check common ports: 22, 80, 443"]
           [("lab-01-recon", JInt 5)] 5).
  - discriminate.
  - reflexivity.
  - reflexivity.
  - reflexivity.
  - simpl. lia.
  - discriminate.
  - discriminate.
  - discriminate.
  - reflexivity.
  - reflexivity.
  - lia.
Defined.

(** X8.  [cmd_hint] is a query: whatever the session and the files hold, and
    whether it shows a hint, shows none or raises, it changes no file.  A
    session whose active lab is [None], the empty string or 0 has no active
    lab. *)
Theorem cmd_hint_reads_only (sd : string) (s : StudentSession) (σ : fs) :
  (cmd_hint sd s σ).2 = σ
  /\ (forall cur,
        active_lab s = inr cur -> truthy cur = false ->
        cmd_hint sd s σ = (inr HintNoActiveLab, σ)).
Proof.
  split; [apply cmd_hint_frame|].
  intros cur Hcur Ht. unfold cmd_hint. unfold active_lab in Hcur.
  by rewrite bind_lift, Hcur, Ht.
Qed.

Lemma cmd_hint_reads_only_witness :
  active_lab fresh_session = inr JNull
  /\ cmd_hint install_dir fresh_session labs_plain
     = (inr HintNoActiveLab, labs_plain).
Proof.
  split; [reflexivity|].
  exact (proj2 (cmd_hint_reads_only install_dir fresh_session labs_plain)
           JNull eq_refl eq_refl).
Defined.

(** X9.  The hint index is clamped from above only.  With [k >= 1] hints
    and a recorded attempt count [n <= 0], [cmd_hint] counts from the end: it
    shows the hint at index [k + n - 1] under the number [n] when
    [n > - k], and raises [IndexError] when [n <= - k]. *)
Theorem hint_index_not_clamped_below (sd : string) (s : StudentSession)
    (σ : fs) (lab : string) (cfg : dict) (hs : list json) (am : dict) (n : Z) :
  active_lab s = inr (JStr lab) ->
  lab ≠ "" ->
  σ !! lab_file sd lab = Some (File (Decodes (JObj cfg))) ->
  dict_lookup "hints" cfg = Some (JList hs) ->
  (1 <= length hs)%nat ->
  attempts_map s = inr (JObj am) ->
  dict_lookup lab am = Some (JInt n) ->
  n <= 0 ->
  let k := Z.of_nat (length hs) in
  (- k < n ->
     exists h, hs !! Z.to_nat (k + n - 1) = Some h
               /\ cmd_hint sd s σ = (inr (Hint n h), σ))
  /\ (n <= - k ->
      cmd_hint sd s σ = (raise IndexError "list index out of range", σ)).
Proof.
  intros Hcur Hlab Hfile Hhints Hk Ham Hn Hn0 k.
  assert (Hne : hs ≠ []) by (intros ->; simpl in Hk; lia).
  assert (Hdef : default (JInt 1) (dict_lookup lab am) = JInt n)
    by (by rewrite Hn).
  assert (Hrun := cmd_hint_index sd s σ lab cfg hs am n Hcur Hlab Hfile Hhints
                    Hne Ham Hdef).
  cbv zeta in Hrun. fold k in Hrun.
  replace (Z.min (n - 1) (k - 1)) with (n - 1) in Hrun by lia.
  split.
  - intros Hlt.
    destruct (lookup_lt_is_Some_2 hs (Z.to_nat (k + n - 1))) as [h Hh];
      [unfold k in *; lia|].
    exists h. split; [done|]. rewrite Hrun.
    rewrite seq_index_from_end by (fold k; lia). fold k.
    replace (k + (n - 1)) with (k + n - 1) by lia. rewrite Hh.
    by replace (n - 1 + 1) with n by lia.
  - intros Hle. rewrite Hrun.
    by rewrite seq_index_out by (fold k; lia).
Qed.

Lemma hint_index_not_clamped_below_witness :
  exists h,
    [JStr "Try asking the red agent to scan for open ports";
     JStr "Check common ports: 22, 80, 443"] !! Z.to_nat (Z.of_nat 2 + 0 - 1)
    = Some h
    /\ cmd_hint install_dir zero_attempt_session labs_plain
       = (inr (Hint 0 h), labs_plain).
Proof.
  apply (proj1 (hint_index_not_clamped_below install_dir zero_attempt_session
           labs_plain "lab-01-recon"
           [("title", JStr "Basic Network Reconnaissance");
            ("difficulty", JStr "beginner");
            ("objectives", JList [JStr "Identify all open ports on the target"]);
            ("hints", JList [JStr "Try asking the red agent to scan for open ports";
                             JStr "Check common ports: 22, 80, 443"])]
           [JStr "Try asking the red agent to scan for open ports";
            JStr "Check common ports: 22, 80, 443"]
           [("lab-01-recon", JInt 0)] 0
           eq_refl ltac:(discriminate) eq_refl eq_refl ltac:(simpl; lia)
           eq_refl eq_refl ltac:(lia))).
  simpl. lia.
Defined.

(** X10.  A lab without a verification procedure cannot be completed: for
    an active lab whose definition loads and whose directory holds no
    [verify.py], [cmd_verify] answers "not quite there" with score 0,
    whatever running a script would have done, and leaves the session and
    the store as they are. *)
Theorem unverifiable_lab_never_completes (sd : string) (s : StudentSession)
    (now : string) (run : run_outcome) (σ : fs) (l : string) (cfg : dict) :
  active_lab s = inr (JStr l) ->
  l ≠ "" ->
  σ !! lab_file sd l = Some (File (Decodes (JObj cfg))) ->
  σ !! script_path sd (definition_of l cfg) = None ->
  cmd_verify sd s now run σ
  = (inr (s, NotQuiteThere
               (zero_result (definition_of l cfg) now
                  "No automated verification available")), σ).
Proof.
  intros Hcur Hl Hfile Hscript.
  rewrite (cmd_verify_result sd s now run σ l (definition_of l cfg)
             (zero_result (definition_of l cfg) now
                "No automated verification available") 0); try done.
  - by apply load_object.
  - by apply verify_without_script.
  - by repeat eexists.
Qed.

Lemma unverifiable_lab_never_completes_witness :
  cmd_verify install_dir retrying_session t1 passing labs_plain
  = (inr (retrying_session,
          NotQuiteThere
            (zero_result recon_lab t1 "No automated verification available")),
     labs_plain).
Proof.
  apply (unverifiable_lab_never_completes install_dir retrying_session t1
           passing labs_plain "lab-01-recon"
           [("title", JStr "Basic Network Reconnaissance");
            ("difficulty", JStr "beginner");
            ("objectives", JList [JStr "Identify all open ports on the target"]);
            ("hints", JList [JStr "Try asking the red agent to scan for open ports";
                             JStr "Check common ports: 22, 80, 443"])]).
  - reflexivity.
  - discriminate.
  - reflexivity.
  - reflexivity.
Defined.

(** X11.  A lab is completed once per start: after a [cmd_verify] that
    completed the lab, a further [cmd_verify] finds no active lab, whatever
    the verification would say, and changes nothing. *)
Theorem no_second_completion_without_restart (sd : string)
    (s : StudentSession) (now : string) (run : run_outcome) (σ σ' : fs)
    (s' : StudentSession) (results : json) :
  cmd_verify sd s now run σ = (inr (s', LabCompleted results), σ') ->
  forall now' run',
    cmd_verify sd s' now' run' σ' = (inr (s', VerifyNoActiveLab), σ').
Proof.
  intros Hrun now' run'.
  destruct (cmd_verify_shape _ _ _ _ _ _ _ Hrun)
    as [[_ H]|(l & z & s1 & res & [= <- <-] & _ & _ & Hcl)];
    [by destruct (H s' results)|].
  apply complete_lab_clears in Hcl. unfold active_lab in Hcl.
  unfold cmd_verify. by rewrite bind_lift, Hcl.
Qed.

Lemma no_second_completion_without_restart_witness :
  cmd_verify install_dir retrying_session t1 passing labs_checked
  = (inr (completed_session, LabCompleted passing_result), completed_store)
  /\ cmd_verify install_dir completed_session t0 passing completed_store
     = (inr (completed_session, VerifyNoActiveLab), completed_store).
Proof.
  split; [reflexivity|].
  apply (no_second_completion_without_restart install_dir retrying_session t1
           passing labs_checked completed_store completed_session
           passing_result).
  reflexivity.
Defined.

(** X12.  Whatever [cmd_verify] returns or raises, it writes no file but the
    session file, and it writes that one only when it reports the lab
    completed. *)
Theorem cmd_verify_writes_session_only (sd : string) (s : StudentSession)
    (now : string) (run : run_outcome) (σ σ' : fs)
    (r : res (StudentSession * verify_output)) :
  cmd_verify sd s now run σ = (r, σ') ->
  (forall p, p ≠ s.(session_file) -> σ' !! p = σ !! p)
  /\ ((forall s' results, r ≠ inr (s', LabCompleted results)) -> σ' = σ).
Proof.
  intros Hrun.
  destruct (cmd_verify_shape _ _ _ _ _ _ _ Hrun)
    as [[-> H]|(l & z & s1 & res & -> & _ & _ & Hcl)].
  - done.
  - split.
    + intros p Hp.
      destruct (proj2 (complete_lab_shape _ _ _ _ _ _ Hcl) s1 eq_refl)
        as (_ & _ & ->).
      by apply lookup_insert_ne.
    + intros H. by destruct (H s1 res).
Qed.

Lemma cmd_verify_writes_session_only_witness :
  (forall p, p ≠ retrying_session.(session_file) ->
     completed_store !! p = labs_checked !! p)
  /\ ((forall s' results,
         @inr exn _ (completed_session, LabCompleted passing_result)
         ≠ inr (s', LabCompleted results)) ->
      completed_store = labs_checked).
Proof.
  apply (cmd_verify_writes_session_only install_dir retrying_session t1
           passing labs_checked).
  reflexivity.
Defined.

(** X13.  The payload of a verification procedure overrides every field of
    the result it names, the lab identifier and the timestamp included; a
    field it does not name keeps the value [verify] started from. *)
Theorem payload_overrides_result (sd : string) (lab : LabDefinition)
    (now : string) (σ : fs) (kv : dict) (stderr : string) :
  is_Some (σ !! script_path sd lab) ->
  NoDup kv.*1 ->
  exists results,
    verify sd lab now (Exited 0 (Decodes (JObj kv)) stderr) σ
    = (inr (JObj results), σ)
    /\ (forall k v, dict_lookup k kv = Some v -> dict_lookup k results = Some v)
    /\ (forall k, dict_lookup k kv = None ->
          dict_lookup k results = dict_lookup k (initial_results lab now)).
Proof.
  intros Hs Hnd. rewrite verify_with_script by done.
  eexists. split; [reflexivity|]. split.
  - intros k v Hk. fold (initial_results lab now).
    by rewrite merge_lookup, Hk.
  - intros k Hk. fold (initial_results lab now).
    by rewrite merge_lookup, Hk.
Qed.

Lemma payload_overrides_result_witness :
  exists results,
    verify install_dir recon_lab t0 (Exited 0 (Decodes (JObj spoofing)) "")
      labs_checked
    = (inr (JObj results), labs_checked)
    /\ (forall k v, dict_lookup k spoofing = Some v ->
          dict_lookup k results = Some v)
    /\ (forall k, dict_lookup k spoofing = None ->
          dict_lookup k results = dict_lookup k (initial_results recon_lab t0)).
Proof.
  apply (payload_overrides_result install_dir recon_lab t0 labs_checked
           spoofing "").
  - by eexists.
  - apply (bool_decide_unpack _). by vm_compute.
Defined.

(** X14.  [verify] is not safe against every output: when the output of a
    procedure that exits with code 0 decodes to a list whose first element
    is the pair of "feedback" and a value that is no list and whose second
    element is no sequence, the handler of the error fails in its turn and
    [verify] raises [AttributeError]. *)
Theorem verify_can_raise (sd : string) (lab : LabDefinition) (now : string)
    (σ : fs) (v bad : json) (stderr : string) :
  is_Some (σ !! script_path sd lab) ->
  (forall l, v ≠ JList l) ->
  scalar bad ->
  verify sd lab now
    (Exited 0 (Decodes (JList [JList [JStr "feedback"; v]; bad])) stderr) σ
  = (raise AttributeError
       ("'" +:+ type_name v +:+ "' object has no attribute 'append'"), σ).
Proof.
  intros Hs Hv Hbad. rewrite verify_with_script by done.
  destruct bad; try done; destruct v; try done; by destruct (Hv l).
Qed.

Lemma verify_can_raise_witness :
  verify install_dir recon_lab t0
    (Exited 0 (Decodes (JList [JList [JStr "feedback"; JInt 5]; JInt 7])) "")
    labs_checked
  = (raise AttributeError "'int' object has no attribute 'append'",
     labs_checked).
Proof.
  apply (verify_can_raise install_dir recon_lab t0 labs_checked (JInt 5)
           (JInt 7) "").
  - by eexists.
  - discriminate.
  - exact I.
Defined.

(** X15.  [cmd_grade] changes no file, whatever the store holds; for a
    student without a record it reports a score of 0, no completed lab and
    an empty breakdown, and creates no record. *)
Theorem cmd_grade_reads_only (sid now : string) (σ : fs) :
  (cmd_grade sid now σ).2 = σ
  /\ (σ !! record_path sid = None ->
      cmd_grade sid now σ
      = (inr {| report_score := JInt 0; report_completed := JInt 0;
                report_rows := [] |}, σ)).
Proof.
  split; [apply cmd_grade_frame|].
  intros Hnone.
  by rewrite (cmd_grade_run sid now σ _ [] [] (JInt 0) JNull
                (init_new sid now σ Hnone)).
Qed.

Lemma cmd_grade_reads_only_witness :
  labs_plain !! record_path "student-02" = None
  /\ cmd_grade "student-02" t0 labs_plain
     = (inr {| report_score := JInt 0; report_completed := JInt 0;
               report_rows := [] |}, labs_plain).
Proof.
  split; [reflexivity|].
  exact (proj2 (cmd_grade_reads_only "student-02" t0 labs_plain) eq_refl).
Defined.

(** X16.  The grade report after any sequence of [start_lab] and
    [complete_lab] calls from a first access: the total is the sum of the
    scores of the completions, the count is the number of distinct labs
    completed, and the breakdown has one row for each lab started and no
    other, giving the number of its starts and marking it exactly when it
    was completed.  A lab completed but never started is counted and has no
    row. *)
Theorem grade_after_history (sid now now' : string) (σ : fs) (ops : list op) :
  σ !! record_path sid = None ->
  exists s0 s σ' cl report,
    StudentSession_init sid now σ = (inr s0, σ)
    /\ run_ops s0 ops σ = (inr s, σ')
    /\ cmd_grade sid now' σ' = (inr report, σ')
    /\ report.(report_score) = JInt (score_sum ops)
    /\ completed s = inr (JList cl)
    /\ report.(report_completed) = JInt (Z.of_nat (length cl))
    /\ NoDup (row_lab <$> report.(report_rows))
    /\ (forall lab, lab ∈ row_lab <$> report.(report_rows) <-> 0 < starts lab ops)
    /\ (forall row, row ∈ report.(report_rows) ->
          row.(row_attempts) = JInt (starts row.(row_lab) ops)
          /\ (row.(row_completed) = true
              <-> Exists (completes row.(row_lab)) ops)).
Proof.
  intros Hnone.
  destruct (history_replay sid now σ ops Hnone)
    as (s0 & s & σ' & cl & am & Hinit & Hrun & Hc & Ha & Ht & Hcur & Hat & Hmem
        & Hnd & Hper & Hfr).
  assert (Hgrade : cmd_grade sid now' σ'
                   = (inr {| report_score := JInt (score_sum ops);
                             report_completed := JInt (Z.of_nat (length cl));
                             report_rows := row_of cl am <$> dict_keys am |},
                      σ')).
  { destruct Hper as [[-> ->]|Hper].
    - rewrite (init_new sid now σ Hnone) in Hinit. injection Hinit as <-.
      injection Hrun as <-. injection Hc as <-. injection Ha as <-.
      by rewrite (cmd_grade_run sid now' σ _ [] [] (JInt 0) JNull
                    (init_new sid now' σ Hnone)).
    - by rewrite (cmd_grade_run sid now' σ' _ cl am (JInt (score_sum ops))
                    (active_after JNull ops) (init_saved sid now' σ' _ Hper)). }
  eexists s0, s, σ', cl, _. split; [done|]. split; [done|].
  split; [exact Hgrade|]. cbn [report_score report_completed report_rows].
  split; [done|]. split; [done|]. split; [done|].
  rewrite <- list_fmap_compose.
  replace (row_lab ∘ row_of cl am) with (@id string) by done.
  rewrite list_fmap_id. split; [apply dict_keys_NoDup|]. split.
  - intros lab. rewrite dict_keys_elem, Hat.
    pose proof (starts_nonneg lab ops).
    destruct (starts lab ops =? 0) eqn:E.
    + split; [by intros [? ?]|lia].
    + split; [lia|by eexists].
  - intros row Hrow. apply list_elem_of_fmap in Hrow as (lab & -> & Hlab).
    apply dict_keys_elem in Hlab. rewrite Hat in Hlab.
    cbn [row_of row_attempts row_lab row_completed]. rewrite Hat.
    destruct (starts lab ops =? 0); [by destruct Hlab|]. split; [done|].
    rewrite existsb_eq_str, Hmem. split.
    + by intros (l & [= <-] & H).
    + intros H. by exists lab.
Qed.

Lemma grade_after_history_witness :
  exists s0 s σ' cl report,
    StudentSession_init "student-01" t0 ∅ = (inr s0, ∅)
    /\ run_ops s0 scenario ∅ = (inr s, σ')
    /\ cmd_grade "student-01" t1 σ' = (inr report, σ')
    /\ report.(report_score) = JInt (score_sum scenario)
    /\ completed s = inr (JList cl)
    /\ report.(report_completed) = JInt (Z.of_nat (length cl))
    /\ NoDup (row_lab <$> report.(report_rows))
    /\ (forall lab, lab ∈ row_lab <$> report.(report_rows)
                    <-> 0 < starts lab scenario)
    /\ (forall row, row ∈ report.(report_rows) ->
          row.(row_attempts) = JInt (starts row.(row_lab) scenario)
          /\ (row.(row_completed) = true
              <-> Exists (completes row.(row_lab)) scenario)).
Proof.
  apply (grade_after_history "student-01" t0 t1 ∅ scenario). reflexivity.
Defined.

(** X17.  A confirmed [cmd_reset] of a student whose record is readable, or
    who has none, removes the record and touches no other file; the next
    access of the student starts from the zero state. *)
Theorem reset_clears_progress (sid now now' confirm : string) (σ : fs) :
  lower confirm = "yes" ->
  (σ !! record_path sid = None
   \/ exists d, σ !! record_path sid = Some (File (Decodes d))) ->
  exists σ',
    cmd_reset sid now confirm σ = (inr ResetComplete, σ')
    /\ σ' !! record_path sid = None
    /\ (forall p, p ≠ record_path sid -> σ' !! p = σ !! p)
    /\ StudentSession_init sid now' σ'
       = (inr {| student_id := sid; session_file := record_path sid;
                 data := zero_state sid now' |}, σ').
Proof.
  intros Hyes Hrec. unfold cmd_reset. rewrite Hyes. cbn [String.eqb Ascii.eqb
    Bool.eqb].
  destruct Hrec as [Hnone|[d Hd]].
  - exists σ. rewrite (bind_run _ _ _ _ _ (init_new sid now σ Hnone)).
    unfold bind, unlink, ret. cbn [session_file]. rewrite Hnone.
    split; [done|]. split; [done|]. split; [done|]. by apply init_new.
  - exists (delete (record_path sid) σ).
    rewrite (bind_run _ _ _ _ _ (init_saved sid now σ d Hd)).
    unfold bind, unlink, ret. cbn [session_file]. rewrite Hd.
    split; [done|]. split; [apply lookup_delete_eq|].
    split; [by intros p Hp; apply lookup_delete_ne|].
    apply init_new. apply lookup_delete_eq.
Qed.

Lemma reset_clears_progress_witness :
  exists σ',
    cmd_reset "student-01" t1 "YES" started_store = (inr ResetComplete, σ')
    /\ σ' !! record_path "student-01" = None
    /\ (forall p, p ≠ record_path "student-01" -> σ' !! p = started_store !! p)
    /\ StudentSession_init "student-01" t1 σ'
       = (inr {| student_id := "student-01";
                 session_file := record_path "student-01";
                 data := zero_state "student-01" t1 |}, σ').
Proof.
  apply (reset_clears_progress "student-01" t1 t1 "YES" started_store).
  - reflexivity.
  - right. by eexists.
Defined.

(** X18.  [cmd_reset] does nothing unless the answer is "yes" in some
    casing, and it cannot reset a record that is not a JSON text: it loads
    the session before it removes the file, so it raises the decoder's error
    and the record stays. *)
Theorem reset_needs_yes_and_readable_record (sid now confirm : string) (σ : fs) :
  (lower confirm ≠ "yes" ->
     cmd_reset sid now confirm σ = (inr ResetCancelled, σ))
  /\ (lower confirm = "yes" ->
      forall msg l c p,
        σ !! record_path sid = Some (File (Undecodable msg l c p)) ->
        cmd_reset sid now confirm σ = (inl (decode_error msg l c p), σ)).
Proof.
  unfold cmd_reset. split.
  - intros H. apply String.eqb_neq in H. by rewrite H.
  - intros -> msg l c p Hrec. cbn [String.eqb Ascii.eqb Bool.eqb].
    unfold bind at 1. unfold StudentSession_init, bind at 1.
    fold (record_path sid). rewrite load_or_create_unfold, Hrec.
    unfold json_load. by rewrite Hrec.
Qed.

Lemma reset_needs_yes_and_readable_record_witness :
  cmd_reset "student-01" t1 "y" state_corrupt = (inr ResetCancelled, state_corrupt)
  /\ cmd_reset "student-01" t1 "Yes" state_corrupt
     = (inl (decode_error "Expecting value" 1 1 0), state_corrupt).
Proof.
  split.
  - apply (proj1 (reset_needs_yes_and_readable_record "student-01" t1 "y"
                    state_corrupt)).
    discriminate.
  - apply (proj2 (reset_needs_yes_and_readable_record "student-01" t1 "Yes"
                    state_corrupt) eq_refl "Expecting value" 1 1 0).
    reflexivity.
Defined.

(** X19.  [chat] never raises: whatever the server does it returns a reply.
    The reply is the content of the message of the answer when the answer
    has one, and otherwise the text "Error communicating with", the model
    and the error: the transport error, the decoder's error, or the missing
    key. *)
Theorem chat_always_replies (post : string -> json -> http_outcome)
    (base model message : string) (system : option string) :
  let outcome := post (base +:+ "/api/chat") (chat_request model message system) in
  (exists reply, chat post base model message system = inr reply)
  /\ (forall e, outcome = HttpFails e ->
        chat post base model message system = inr (chat_error model e))
  /\ (forall msg l c p, outcome = HttpResponds (Undecodable msg l c p) ->
        chat post base model message system
        = inr (chat_error model (decode_error msg l c p)))
  /\ (forall kv, outcome = HttpResponds (Decodes (JObj kv)) ->
        dict_lookup "message" kv = None ->
        chat post base model message system
        = inr (chat_error model (Exn KeyError "'message'")))
  /\ (forall answer reply content,
        outcome = HttpResponds (Decodes answer) ->
        getitem answer "message" = inr reply ->
        getitem reply "content" = inr content ->
        chat post base model message system = inr content).
Proof.
  intros outcome. rewrite chat_unfold. fold outcome.
  split; [|split; [|split; [|split]]].
  - destruct outcome as [e|[v|msg l c p]]; simpl; try (by eexists).
    destruct (getitem v "message") as [e|reply]; simpl; [by eexists|].
    destruct (getitem reply "content"); simpl; by eexists.
  - by intros e ->.
  - by intros msg l c p ->.
  - intros kv -> Hk. simpl. by rewrite Hk.
  - intros answer reply content -> Hr Hc. simpl. rewrite Hr. simpl.
    by rewrite Hc.
Qed.

Lemma chat_always_replies_witness :
  chat no_server_post OLLAMA_URL RED_MODEL "scan the target" None
  = inr (JStr "Error communicating with red-qwen-agent: Connection refused").
Proof.
  exact (proj1 (proj2 (chat_always_replies no_server_post OLLAMA_URL RED_MODEL
                         "scan the target" None)) unreachable eq_refl).
Defined.

(** X20.  The list of models is all or nothing.  When every entry of the
    answer has a name, [list_models] returns the names and an agent is shown
    as present exactly when its model name is one of them.  When the server
    fails, or one entry has no name, [list_models] returns the empty list,
    so both agents are shown as absent whatever the other entries say. *)
Theorem list_models_all_or_nothing (get : string -> http_outcome) :
  let outcome := get (OLLAMA_URL +:+ "/api/tags") in
  (exists models, list_models get OLLAMA_URL = inr models)
  /\ (forall kv entries names,
        outcome = HttpResponds (Decodes (JObj kv)) ->
        dict_lookup "models" kv = Some (JList entries) ->
        Forall2 (fun entry name => getitem entry "name" = inr name)
          entries names ->
        list_models get OLLAMA_URL = inr names
        /\ exists red blue,
             get_agent_status get
             = inr (JObj [("red_agent", JBool red);
                          ("blue_agent", JBool blue);
                          ("models_loaded", JList names)])
             /\ (red = true <-> JStr RED_MODEL ∈ names)
             /\ (blue = true <-> JStr BLUE_MODEL ∈ names))
  /\ (forall e, outcome = HttpFails e -> list_models get OLLAMA_URL = inr [])
  /\ (forall kv entries entry,
        outcome = HttpResponds (Decodes (JObj kv)) ->
        dict_lookup "models" kv = Some (JList entries) ->
        entry ∈ entries ->
        (forall name, getitem entry "name" ≠ inr name) ->
        list_models get OLLAMA_URL = inr []
        /\ get_agent_status get
           = inr (JObj [("red_agent", JBool false);
                        ("blue_agent", JBool false);
                        ("models_loaded", JList [])])).
Proof.
  intros outcome. unfold get_agent_status, list_models. fold outcome.
  split; [|split; [|split]].
  - destruct (_ <-? response_json outcome; _); by eexists.
  - intros kv entries names -> Hm Hall. simpl. rewrite Hm. simpl.
    rewrite (for_each_Forall2 _ _ _ Hall). simpl. split; [done|].
    eexists _, _. split; [reflexivity|].
    split; apply existsb_eq_str.
  - by intros e ->.
  - intros kv entries entry -> Hm Hin Hbad. simpl. rewrite Hm. simpl.
    by destruct (for_each_fails (fun model => getitem model "name")
                   entries entry Hin Hbad) as [e ->].
Qed.

Lemma list_models_all_or_nothing_witness :
  list_models half_listed_get OLLAMA_URL = inr []
  /\ get_agent_status half_listed_get
     = inr (JObj [("red_agent", JBool false);
                  ("blue_agent", JBool false);
                  ("models_loaded", JList [])]).
Proof.
  apply (proj2 (proj2 (proj2 (list_models_all_or_nothing half_listed_get)))
           [("models", JList [JObj [("name", JStr "red-qwen-agent")];
                              JObj [("model", JStr "blue-llama-agent")]])]
           [JObj [("name", JStr "red-qwen-agent")];
            JObj [("model", JStr "blue-llama-agent")]]
           (JObj [("model", JStr "blue-llama-agent")])).
  - reflexivity.
  - reflexivity.
  - apply list_elem_of_further, list_elem_of_here.
  - discriminate.
Defined.



(** X22.  [generate] never raises either: it returns the "response" entry of
    the answer when there is one and otherwise the text "Error: " followed
    by the error (the transport error, the decoder's error or the missing
    key), which, unlike the reply of [chat], does not name the model. *)
Theorem generate_always_replies (post : string -> json -> http_outcome)
    (base model prompt : string) :
  let outcome :=
    post (base +:+ "/api/generate")
      (JObj [("model", JStr model); ("prompt", JStr prompt);
             ("stream", JBool false)]) in
  (exists reply, generate post base model prompt = inr reply)
  /\ (forall e, outcome = HttpFails e ->
        generate post base model prompt = inr (JStr ("Error: " +:+ e.(exn_str))))
  /\ (forall answer e,
        outcome = HttpResponds (Decodes answer) ->
        getitem answer "response" = inl e ->
        generate post base model prompt = inr (JStr ("Error: " +:+ e.(exn_str))))
  /\ (forall answer reply,
        outcome = HttpResponds (Decodes answer) ->
        getitem answer "response" = inr reply ->
        generate post base model prompt = inr reply)
  /\ (forall msg l c p,
        outcome = HttpResponds (Undecodable msg l c p) ->
        generate post base model prompt
        = inr (JStr ("Error: " +:+ (decode_error msg l c p).(exn_str)))).
Proof.
  intros outcome. unfold generate. fold outcome.
  split; [|split; [|split; [|split]]].
  - destruct outcome as [e|[v|msg l c p]]; simpl; try (by eexists).
    destruct (getitem v "response"); simpl; by eexists.
  - by intros e ->.
  - intros answer e -> Hr. simpl. by rewrite Hr.
  - intros answer reply -> Hr. simpl. by rewrite Hr.
  - by intros msg l c p ->.
Qed.

Lemma generate_always_replies_witness :
  generate no_server_post OLLAMA_URL BLUE_MODEL "summarise the alerts"
  = inr (JStr "Error: Connection refused").
Proof.
  exact (proj1 (proj2 (generate_always_replies no_server_post OLLAMA_URL
                         BLUE_MODEL "summarise the alerts"))
           unreachable eq_refl).
Defined.
